(** * couchtap: the TAP protocol client of [lib/client.js]

    A shallow embedding of the [Client] object of [lib/client.js]: the
    handshake handlers, the streaming-mode request [setMode], the dispatch
    of inbound packets in [_onData] and the per-opcode event decoders.

    Buffers are lists of bytes, JavaScript numbers that hold integers are
    [Z], JavaScript strings are lists of UTF-16 code units.  The methods of
    the client run in a small monad that threads the object's fields,
    records what the client does to the outside (events emitted, calls on
    the connection) in program order, and can end in a thrown exception. *)

From Stdlib Require Import ZArith Strings.Byte Ascii String Lia.
From stdpp Require Import base list gmap.

Open Scope Z_scope.

(** ** Node.js values: buffers and strings *)

Definition Buffer := list byte.

(** A JavaScript string, as its sequence of UTF-16 code units. *)
Definition JsString := list Z.

Definition byte_to_Z (b : byte) : Z := Z.of_N (Byte.to_N b).

Definition byte_of_Z (z : Z) : byte :=
  match Byte.of_N (Z.to_N (z mod 256)) with
  | Some b => b
  | None => x00
  end.

(** A string literal of the source, written with a Rocq string. *)
Definition js (s : string) : JsString :=
  map (fun a => Z.of_N (N_of_ascii a)) (list_ascii_of_string s).

Module Buf.

(** [buf.length] *)
Definition length (b : Buffer) : Z := Z.of_nat (List.length b).

(** An index argument of [slice]: a negative index counts from the end,
    and the result is clamped to [0, buf.length]. *)
Definition clamp (len i : Z) : Z :=
  if i <? 0 then Z.max 0 (i + len) else Z.min i len.

(** [buf.slice(start, end)] *)
Definition slice (b : Buffer) (start end_ : Z) : Buffer :=
  let s := clamp (length b) start in
  let e := clamp (length b) end_ in
  take (Z.to_nat (e - s)) (drop (Z.to_nat s) b).

(** [buf.slice(start)]: [end] defaults to [buf.length]. *)
Definition slice_from (b : Buffer) (start : Z) : Buffer :=
  slice b start (length b).

(** [Buffer.concat(list)] *)
Definition concat (chunks : list Buffer) : Buffer := List.concat chunks.

(** The unsigned big-endian value of a run of bytes. *)
Definition be_value (bs : list byte) : Z :=
  fold_left (fun acc x => acc * 256 + byte_to_Z x) bs 0.

(** The readers throw a RangeError ([None] here) when the [width] bytes
    at [off] are not all inside the buffer. *)
Definition read_be (width : Z) (b : Buffer) (off : Z) : option Z :=
  if (0 <=? off) && (off + width <=? length b)
  then Some (be_value (take (Z.to_nat width) (drop (Z.to_nat off) b)))
  else None.

Definition readUInt8 := read_be 1.
Definition readUInt16BE := read_be 2.
Definition readUInt32BE := read_be 4.

(** [buf.toString('ascii')]: the high bit of every byte is dropped. *)
Definition toString_ascii (b : Buffer) : JsString :=
  map (fun x => Z.land (byte_to_Z x) 0x7F) b.

(** *** [buf.toString('utf8')]

    The decoder of the Encoding standard, without any treatment of a
    byte order mark: a malformed sequence gives U+FFFD and the byte that
    broke it is looked at again as the start of a sequence. *)
Record Utf8State := {
  code_point : Z;
  bytes_seen : Z;
  bytes_needed : Z;
  lower : Z;
  upper : Z
}.

Definition utf8_init : Utf8State :=
  {| code_point := 0; bytes_seen := 0; bytes_needed := 0;
     lower := 0x80; upper := 0xBF |}.

Definition utf8_expect (cp needed lo hi : Z) : Utf8State :=
  {| code_point := cp; bytes_seen := 0; bytes_needed := needed;
     lower := lo; upper := hi |}.

(** A byte read when no sequence is open: the code points it completes
    and the state it leaves. *)
Definition utf8_lead (v : Z) : list Z * Utf8State :=
  if v <=? 0x7F then ([v], utf8_init)
  else if (0xC2 <=? v) && (v <=? 0xDF)
  then ([], utf8_expect (Z.land v 0x1F) 1 0x80 0xBF)
  else if (0xE0 <=? v) && (v <=? 0xEF)
  then ([], utf8_expect (Z.land v 0xF) 2
              (if v =? 0xE0 then 0xA0 else 0x80)
              (if v =? 0xED then 0x9F else 0xBF))
  else if (0xF0 <=? v) && (v <=? 0xF4)
  then ([], utf8_expect (Z.land v 0x7) 3
              (if v =? 0xF0 then 0x90 else 0x80)
              (if v =? 0xF4 then 0x8F else 0xBF))
  else ([0xFFFD], utf8_init).

Fixpoint utf8_run (st : Utf8State) (bs : list byte) : list Z :=
  match bs with
  | [] => if bytes_needed st =? 0 then [] else [0xFFFD]
  | b :: rest =>
      let v := byte_to_Z b in
      if bytes_needed st =? 0
      then let '(out, st') := utf8_lead v in out ++ utf8_run st' rest
      else if (lower st <=? v) && (v <=? upper st)
      then
        let cp := Z.lor (Z.shiftl (code_point st) 6) (Z.land v 0x3F) in
        if bytes_seen st + 1 =? bytes_needed st
        then cp :: utf8_run utf8_init rest
        else utf8_run {| code_point := cp;
                         bytes_seen := bytes_seen st + 1;
                         bytes_needed := bytes_needed st;
                         lower := 0x80; upper := 0xBF |} rest
      else let '(out, st') := utf8_lead v in
           0xFFFD :: out ++ utf8_run st' rest
  end.

(** The UTF-16 code units of a code point. *)
Definition utf16_units (cp : Z) : list Z :=
  if cp <? 0x10000 then [cp]
  else [0xD800 + Z.shiftr (cp - 0x10000) 10;
        0xDC00 + Z.land (cp - 0x10000) 0x3FF].

Definition toString_utf8 (b : Buffer) : JsString :=
  flat_map utf16_units (utf8_run utf8_init b).

(** *** [new Buffer(string)]: the UTF-8 bytes of a string; a surrogate
    without its partner is written as U+FFFD. *)
Definition utf8_bytes (cp : Z) : list byte :=
  if cp <? 0x80 then [byte_of_Z cp]
  else if cp <? 0x800
  then [byte_of_Z (0xC0 + Z.shiftr cp 6);
        byte_of_Z (0x80 + Z.land cp 0x3F)]
  else if cp <? 0x10000
  then [byte_of_Z (0xE0 + Z.shiftr cp 12);
        byte_of_Z (0x80 + Z.land (Z.shiftr cp 6) 0x3F);
        byte_of_Z (0x80 + Z.land cp 0x3F)]
  else [byte_of_Z (0xF0 + Z.shiftr cp 18);
        byte_of_Z (0x80 + Z.land (Z.shiftr cp 12) 0x3F);
        byte_of_Z (0x80 + Z.land (Z.shiftr cp 6) 0x3F);
        byte_of_Z (0x80 + Z.land cp 0x3F)].

Definition is_high (u : Z) : bool := (0xD800 <=? u) && (u <=? 0xDBFF).
Definition is_low (u : Z) : bool := (0xDC00 <=? u) && (u <=? 0xDFFF).

Fixpoint from_string (s : JsString) : Buffer :=
  match s with
  | [] => []
  | u :: rest =>
      if is_high u then
        match rest with
        | l :: rest' =>
            if is_low l
            then utf8_bytes (0x10000 + (u - 0xD800) * 0x400 + (l - 0xDC00))
                   ++ from_string rest'
            else utf8_bytes 0xFFFD ++ from_string rest
        | [] => utf8_bytes 0xFFFD
        end
      else if is_low u then utf8_bytes 0xFFFD ++ from_string rest
      else utf8_bytes u ++ from_string rest
  end.

(** [new Buffer(0)]: a buffer of size zero. *)
Definition alloc0 : Buffer := [].

End Buf.

(** [str.split(sep)] for a one-character separator. *)
Fixpoint split_go (sep : Z) (cur : JsString) (s : JsString) : list JsString :=
  match s with
  | [] => [rev cur]
  | c :: rest =>
      if c =? sep then rev cur :: split_go sep [] rest
      else split_go sep (c :: cur) rest
  end.

Definition String_split (s : JsString) (sep : Z) : list JsString :=
  split_go sep [] s.

(** ** The packet header and the wire encoders of [factory.js] *)

Module Header.
(** Modelled from the spec: the header object that [factory.js] (not
    among the sources) builds, with the fields of the 24-byte packet
    header.  [dataLength] is the name [client.js] uses for the total
    body length. *)
Record t := {
  magic : Z;
  opcode : Z;
  keyLength : Z;
  extrasLength : Z;
  dataType : Z;
  status : Z;
  dataLength : Z;
  opaque : Z;
  cas : Z
}.

Definition set_magic (v : Z) (h : t) : t :=
  {| magic := v; opcode := opcode h; keyLength := keyLength h;
     extrasLength := extrasLength h; dataType := dataType h;
     status := status h; dataLength := dataLength h; opaque := opaque h;
     cas := cas h |}.
Definition set_opcode (v : Z) (h : t) : t :=
  {| magic := magic h; opcode := v; keyLength := keyLength h;
     extrasLength := extrasLength h; dataType := dataType h;
     status := status h; dataLength := dataLength h; opaque := opaque h;
     cas := cas h |}.
Definition set_keyLength (v : Z) (h : t) : t :=
  {| magic := magic h; opcode := opcode h; keyLength := v;
     extrasLength := extrasLength h; dataType := dataType h;
     status := status h; dataLength := dataLength h; opaque := opaque h;
     cas := cas h |}.
Definition set_extrasLength (v : Z) (h : t) : t :=
  {| magic := magic h; opcode := opcode h; keyLength := keyLength h;
     extrasLength := v; dataType := dataType h;
     status := status h; dataLength := dataLength h; opaque := opaque h;
     cas := cas h |}.
Definition set_dataLength (v : Z) (h : t) : t :=
  {| magic := magic h; opcode := opcode h; keyLength := keyLength h;
     extrasLength := extrasLength h; dataType := dataType h;
     status := status h; dataLength := v; opaque := opaque h;
     cas := cas h |}.

(** Modelled from the spec: [header.toObject()] of [factory.js] restates
    the header as a plain record. *)
Definition toObject (h : t) : t := h.
End Header.

Module factory.
(** The [width] bytes of [v], most significant first. *)
Fixpoint be_bytes (width : nat) (v : Z) : list byte :=
  match width with
  | O => []
  | S w => byte_of_Z (Z.shiftr v (8 * Z.of_nat w)) :: be_bytes w v
  end.

(** Modelled from the spec: [createUInt16BE] and [createUInt32BE] of
    [factory.js] (not among the sources) encode an unsigned integer
    big-endian, with a range check on encode ([None]: a RangeError). *)
Definition createUInt16BE (n : Z) : option Buffer :=
  if (0 <=? n) && (n <? 2 ^ 16) then Some (be_bytes 2 n) else None.

Definition createUInt32BE (n : Z) : option Buffer :=
  if (0 <=? n) && (n <? 2 ^ 32) then Some (be_bytes 4 n) else None.
End factory.

(** ** [node-int64]: [new Int64(number).buffer] for an integer number *)

Module Int64.
Definition VAL32 : Z := 0x100000000.

(** [_2scomp]: negate in place, from the last byte to the first. *)
Definition _2scomp_step (b : byte) (acc : list byte * Z) : list byte * Z :=
  let '(out, carry) := acc in
  let v := Z.lxor (byte_to_Z b) 0xff + carry in
  (byte_of_Z (Z.land v 0xff) :: out, Z.shiftr v 8).

Definition _2scomp (bs : list byte) : list byte :=
  fst (fold_right _2scomp_step ([], 1) bs).

(** [setValue(hi)] with one number: the magnitude is split in two 32-bit
    halves ([hi | 0] keeps the low 32 bits of the quotient), written
    big-endian, and a negative argument is negated afterwards.  A
    magnitude whose quotient by [VAL32] exceeds [VAL32] throws a
    RangeError ([None]). *)
Definition buffer (n : Z) : option Buffer :=
  let negate := n <? 0 in
  let a := Z.abs n in
  let lo := a mod VAL32 in
  if VAL32 * VAL32 <? a then None
  else
    let hi := (a / VAL32) mod VAL32 in
    let bs := factory.be_bytes 4 hi ++ factory.be_bytes 4 lo in
    Some (if negate then _2scomp bs else bs).
End Int64.

(** ** The client object *)

(** The streaming mode passed to [setMode].  [backfill] is absent or an
    integer number, [vbuckets] is absent or an array of integers; the other
    fields are read for their truth value only. *)
Module Mode.
Record t := {
  backfill : option Z;
  dump : bool;
  vbuckets : option (list Z);
  takover : bool;
  enableAcks : bool;
  keysOnly : bool;
  registred : bool
}.
End Mode.

Module Opts.
Record t := {
  host : JsString;
  port : option Z;
  bucket : JsString;
  password : JsString;
  name : option JsString;
  mode : option Mode.t;
  connect : bool
}.
End Opts.

(** The fields of a client.  [listens_error] is what the client's control
    flow sees of the listeners that the inherited event emitter keeps:
    whether a subscriber has been registered for the [error] event. *)
Record Client := {
  opts : Opts.t;
  _connected : bool;
  mode : option Mode.t;
  listens_error : bool
}.

Definition set_connected (v : bool) (c : Client) : Client :=
  {| opts := opts c; _connected := v; mode := mode c;
     listens_error := listens_error c |}.

Definition set_mode (m : Mode.t) (c : Client) : Client :=
  {| opts := opts c; _connected := _connected c; mode := Some m;
     listens_error := listens_error c |}.

(** [new Client(opts)], before any transport signal: nobody listens yet. *)
Definition new_Client (o : Opts.t) : Client :=
  {| opts := o; _connected := false; mode := None; listens_error := false |}.

(** [client.on('error', listener)] *)
Definition on_error (c : Client) : Client :=
  {| opts := opts c; _connected := _connected c; mode := mode c;
     listens_error := true |}.

Inductive JsError :=
| Error (message : JsString)
| RangeError.

(** The [extras] part of the [misc] argument of the decoded events. *)
Record Extras := {
  engine : Z;
  flags : Z;
  ttl : Z;
  reserved : Buffer;
  itemFlags : option Z;
  itemExpiry : option Z
}.

Record Misc := {
  misc_header : Header.t;
  misc_extras : Extras
}.

Record OpaqueFlags := {
  opq_enableAcks : bool;
  startBackfill : bool;
  enableCheckpoints : bool;
  openChekpoint : bool;
  startOnlineUpdate : bool;
  stopOnlineUpdate : bool;
  closeStream : bool;
  closeBackfill : bool
}.

(** What [this.emit(name, ...)] hands to the subscribers. *)
Inductive Event :=
| EvConnect
| EvError (err : JsError)
| EvClose
| EvEnd
| EvData (header : Header.t) (extras key body : Buffer)
| EvMutation (metas : Buffer) (key body : JsString) (misc : Misc)
| EvDelete (metas : Buffer) (key : JsString) (misc : Misc)
| EvFlush (misc : Misc)
| EvOpaque (flags : OpaqueFlags) (misc : Misc).

(** What the client does to the outside, in program order: an event handed
    to the subscribers, or a call on the connection [this._conn]. *)
Inductive Effect :=
| Emit (e : Event)
| ConnConnect (host : JsString) (port : Z)
| ConnSend (header : Header.t) (chunks : list Buffer)
| ConnClose.

(** Only the decoded domain events; the raw [data] notification and the
    lifecycle events are not. *)
Definition is_decoded (e : Effect) : bool :=
  match e with
  | Emit (EvMutation _ _ _ _) | Emit (EvDelete _ _ _)
  | Emit (EvFlush _) | Emit (EvOpaque _ _) => true
  | _ => false
  end.

(** ** The monad of the client's methods *)

Inductive Completion (A : Type) :=
| Normal (a : A)
| Throw (e : JsError).
Arguments Normal {A} a.
Arguments Throw {A} e.

(** A method runs on the fields of [this]; it gives how it completed, the
    fields afterwards and its effects in program order.  After a throw the
    fields and the effects are those reached when it was thrown. *)
Definition M (A : Type) : Type := Client -> Completion A * Client * list Effect.

#[global] Instance M_ret : MRet M := fun A a c => (Normal a, c, []).

#[global] Instance M_bind : MBind M := fun A B f m c =>
  match m c with
  | (Normal a, c1, t1) =>
      let '(r, c2, t2) := f a c1 in (r, c2, t1 ++ t2)
  | (Throw e, c1, t1) => (Throw e, c1, t1)
  end.

Definition this : M Client := fun c => (Normal c, c, []).
Definition assign (f : Client -> Client) : M unit :=
  fun c => (Normal tt, f c, []).
Definition effect (e : Effect) : M unit := fun c => (Normal tt, c, [e]).
Definition throw {A} (e : JsError) : M A := fun c => (Throw e, c, []).

(** A buffer read or an encoder that throws a RangeError when it fails. *)
Definition checked {A} (o : option A) : M A :=
  match o with
  | Some a => mret a
  | None => throw RangeError
  end.

(** Run [f] on every element, in order, and collect the results. *)
Fixpoint forEach {A B} (f : A -> M B) (l : list A) : M (list B) :=
  match l with
  | [] => mret []
  | x :: rest => y ← f x; ys ← forEach f rest; mret (y :: ys)
  end.

(** [this.emit(name, ...)]: the event is handed to the subscribers, who
    are outside the client and are taken to return.  An [error] event that
    nobody listens to is not delivered: the emitter throws the error
    instead.  Every other event is delivered to whoever listens, possibly
    nobody, and the call returns. *)
Definition emit (e : Event) : M unit :=
  match e with
  | EvError err =>
      c ← this;
      if listens_error c then effect (Emit e) else throw err
  | _ => effect (Emit e)
  end.

(** The final fields and the effects of a run. *)
Definition fields_after {A} (r : Completion A * Client * list Effect) : Client :=
  snd (fst r).
Definition effects_of {A} (r : Completion A * Client * list Effect) : list Effect :=
  snd r.

(** JavaScript truth values of the fields the client tests. *)
Definition truthy_number (n : option Z) : bool :=
  match n with
  | Some v => negb (v =? 0)
  | None => false
  end.

(** [!!n] for the result of a bitwise and. *)
Definition truthy_bits (n : Z) : bool := negb (n =? 0).

Definition truthy_object {A} (o : option A) : bool :=
  match o with
  | Some _ => true
  | None => false
  end.

(** [s || 0] under [new Buffer(...)]: an absent or empty string gives the
    number 0, hence a buffer of size zero. *)
Definition Buffer_of_string_or_0 (s : option JsString) : Buffer :=
  match s with
  | Some (u :: rest) => Buf.from_string (u :: rest)
  | _ => Buf.alloc0
  end.

(** The collaborators the client is built on and that are not part of
    [client.js]: the fresh header of [factory.createHeader()] and the
    response of the PLAIN mechanism of the SASL library to a username and
    a password. *)
Class Collaborators := {
  createHeader : Header.t;
  sasl_plain_response : JsString -> JsString -> JsString
}.

Section client.
Context `{Collaborators}.

(** *** Methods *)

(** [this.opts.port || 11210] *)
Definition port_or_default (p : option Z) : Z :=
  if truthy_number p then default 11210 p else 11210.

Definition connect : M unit :=
  c ← this;
  effect (ConnConnect (Opts.host (opts c)) (port_or_default (Opts.port (opts c)))).

Definition close : M unit := effect ConnClose.

(** *** Outgoing datagrams *)

Definition _requestSASLMechs : M unit :=
  let header := createHeader in
  let header := Header.set_magic 0x80 header in
  let header := Header.set_opcode 0x20 header in
  effect (ConnSend header []).

Definition _requestSASLAuth (mechs : list JsString) : M unit :=
  c ← this;
  let key := Buf.from_string (js "PLAIN") in
  let body := Buf.from_string
                (sasl_plain_response (Opts.bucket (opts c))
                                     (Opts.password (opts c))) in
  let header := createHeader in
  let header := Header.set_magic 0x80 header in
  let header := Header.set_opcode 0x21 header in
  let header := Header.set_keyLength (Buf.length key) header in
  let header := Header.set_dataLength (Buf.length key + Buf.length body) header in
  effect (ConnSend header [key; body]).

(** The flag word that [setMode] hands to [createUInt32BE]. *)
Definition mode_flags (mode : Mode.t) : Z :=
  Z.lor (if truthy_number (Mode.backfill mode) then 0x01 else 0)
 (Z.lor (if Mode.dump mode then 0x02 else 0)
 (Z.lor (if truthy_object (Mode.vbuckets mode) then 0x04 else 0)
 (Z.lor (if Mode.takover mode then 0x08 else 0)
 (Z.lor (if Mode.enableAcks mode then 0x10 else 0)
 (Z.lor (if Mode.keysOnly mode then 0x20 else 0)
        (if Mode.registred mode then 0x80 else 0)))))).

(** The chunk pushed under [if (mode.backfill)]. *)
Definition backfill_chunks (mode : Mode.t) : M (list Buffer) :=
  if truthy_number (Mode.backfill mode)
  then b ← checked (Int64.buffer (default 0 (Mode.backfill mode))); mret [b]
  else mret [].

(** The chunks pushed under [if (mode.vbuckets)]. *)
Definition vbuckets_chunks (mode : Mode.t) : M (list Buffer) :=
  match Mode.vbuckets mode with
  | Some vbs =>
      n ← checked (factory.createUInt16BE (Z.of_nat (List.length vbs)));
      ids ← forEach (fun vbucket => checked (factory.createUInt16BE vbucket)) vbs;
      mret (n :: ids)
  | None => mret []
  end.

Definition setMode (mode : Mode.t) : M unit :=
  c ← this;
  if negb (_connected c) then mret tt
  else
    assign (set_mode mode);;
    extras ← checked (factory.createUInt32BE (mode_flags mode));
    let key := Buffer_of_string_or_0 (Opts.name (opts c)) in
    chunks1 ← backfill_chunks mode;
    chunks2 ← vbuckets_chunks mode;
    let body := Buf.concat (chunks1 ++ chunks2) in
    let header := createHeader in
    let header := Header.set_magic 0x80 header in
    let header := Header.set_opcode 0x40 header in
    let header := Header.set_extrasLength (Buf.length extras) header in
    let header := Header.set_keyLength (Buf.length key) header in
    let header := Header.set_dataLength
                    (Buf.length extras + Buf.length key + Buf.length body)
                    header in
    effect (ConnSend header [extras; key; body]).

(** *** Events of the connection *)

Definition _onConnect : M unit := _requestSASLMechs.

Definition _onError (err : JsError) : M unit :=
  assign (set_connected false);;
  emit (EvError err).

Definition _onClose : M unit :=
  assign (set_connected false);;
  emit EvClose.

Definition _onEnd : M unit :=
  assign (set_connected false);;
  emit EvEnd.

(** *** Incoming datagrams *)

Definition Handler : Type := Header.t -> Buffer -> Buffer -> Buffer -> M unit.

Definition _handleSASLAuth : Handler := fun header extras key body =>
  let status := Buf.toString_utf8 body in
  match status with
  | [] =>
      assign (set_connected true);;
      c ← this;
      match Opts.mode (opts c) with
      | Some m => setMode m
      | None => mret tt
      end;;
      emit EvConnect
  | _ :: _ =>
      _onError (Error status);;
      close
  end.

(** The handler calls [this._requestSASLAuth], the method it finds on the
    object when it runs; its body is written over that method. *)
Definition _handleSASLMechs_with (_requestSASLAuth : list JsString -> M unit) : Handler :=
  fun header extras key body =>
    let mechs := String_split (Buf.toString_ascii extras) 32 in
    _requestSASLAuth mechs.

Definition _handleSASLMechs : Handler :=
  _handleSASLMechs_with _requestSASLAuth.

(** The four fields every decoder reads from the extras. *)
Definition common_extras (extras : Buffer) : M Extras :=
  engine ← checked (Buf.readUInt16BE extras 0);
  flags ← checked (Buf.readUInt16BE extras 2);
  ttl ← checked (Buf.readUInt8 extras 4);
  let reserved := Buf.slice extras 5 8 in
  mret {| engine := engine; flags := flags; ttl := ttl; reserved := reserved;
          itemFlags := None; itemExpiry := None |}.

(** The key handed to the subscribers by the mutation and delete
    decoders, before it is turned into a string. *)
Definition visible_key_bytes (metaLength : Z) (key body : Buffer) : Buffer :=
  Buf.concat [Buf.slice key metaLength (Buf.length key);
              Buf.slice body 0 metaLength].

Definition _handleMutation : Handler := fun header extras key body =>
  let h := Header.toObject header in
  e ← common_extras extras;
  itemFlags ← checked (Buf.readUInt32BE extras 8);
  itemExpiry ← checked (Buf.readUInt32BE extras 12);
  let misc := {| misc_header := h;
                 misc_extras := {| engine := engine e; flags := flags e;
                                   ttl := ttl e; reserved := reserved e;
                                   itemFlags := Some itemFlags;
                                   itemExpiry := Some itemExpiry |} |} in
  let metaLength := engine (misc_extras misc) in
  let metas := Buf.slice key 0 metaLength in
  let key' := Buf.toString_utf8 (visible_key_bytes metaLength key body) in
  let body' := Buf.toString_utf8 (Buf.slice_from body metaLength) in
  emit (EvMutation metas key' body' misc).

Definition _handleDelete : Handler := fun header extras key body =>
  let h := Header.toObject header in
  e ← common_extras extras;
  let misc := {| misc_header := h; misc_extras := e |} in
  let metaLength := engine (misc_extras misc) in
  let metas := Buf.slice key 0 metaLength in
  let key' := Buf.toString_utf8 (visible_key_bytes metaLength key body) in
  emit (EvDelete metas key' misc).

Definition _handleFlush : Handler := fun header extras key body =>
  let h := Header.toObject header in
  e ← common_extras extras;
  emit (EvFlush {| misc_header := h; misc_extras := e |}).

Definition _handleOpaque : Handler := fun header extras key body =>
  let h := Header.toObject header in
  e ← common_extras extras;
  let misc := {| misc_header := h; misc_extras := e |} in
  _flags ← checked (Buf.readUInt32BE body 0);
  let flags := {| opq_enableAcks := truthy_bits (Z.land _flags 1);
                  startBackfill := truthy_bits (Z.land _flags 2);
                  enableCheckpoints := truthy_bits (Z.land _flags 4);
                  openChekpoint := truthy_bits (Z.land _flags 8);
                  startOnlineUpdate := truthy_bits (Z.land _flags 16);
                  stopOnlineUpdate := truthy_bits (Z.land _flags 32);
                  closeStream := truthy_bits (Z.land _flags 64);
                  closeBackfill := truthy_bits (Z.land _flags 128) |} in
  emit (EvOpaque flags misc).

(** [Client.handlers]: the table from opcode to handler. *)
Definition handlers : gmap Z Handler :=
  <[0x20 := _handleSASLMechs]>
 (<[0x21 := _handleSASLAuth]>
 (<[0x41 := _handleMutation]>
 (<[0x42 := _handleDelete]>
 (<[0x43 := _handleFlush]>
 (<[0x44 := _handleOpaque]> ∅))))).

Definition _onData : Handler := fun header extras key body =>
  emit (EvData header extras key body);;
  let opcode := Header.opcode header in
  match handlers !! opcode with
  | Some handler => handler header extras key body
  | None => mret tt
  end.

End client.

(** ** The states of the session

    The client keeps no state variable: what it knows of the session is
    the flag [_connected], set by a successful authentication and cleared
    by an error, a close or an end of the transport, and the field [mode],
    set when a mode request is honoured.  [Ready] is an authenticated
    session that has sent no mode request yet, [Streaming] one that has;
    every other state of the session has the flag clear. *)
Inductive SessionState :=
| NotConnected
| Ready
| Streaming.

Definition state_of (c : Client) : SessionState :=
  if _connected c then
    match mode c with
    | Some _ => Streaming
    | None => Ready
    end
  else NotConnected.

(** The modes all of whose numbers can be encoded: the backfill position
    is in the range of [Int64], the vbucket identifiers and their count
    fit 16 bits. *)
Definition mode_encodable (m : Mode.t) : bool :=
  (if truthy_number (Mode.backfill m)
   then truthy_object (Int64.buffer (default 0 (Mode.backfill m)))
   else true)
  && match Mode.vbuckets m with
     | Some vbs =>
         truthy_object (factory.createUInt16BE (Z.of_nat (List.length vbs)))
         && forallb (fun v => truthy_object (factory.createUInt16BE v)) vbs
     | None => true
     end.


(** The header that [setMode] builds for its three chunks. *)
Definition mode_request_header `{Collaborators} (extras key body : Buffer) : Header.t :=
  Header.set_dataLength (Buf.length extras + Buf.length key + Buf.length body)
    (Header.set_keyLength (Buf.length key)
       (Header.set_extrasLength (Buf.length extras)
          (Header.set_opcode 0x40 (Header.set_magic 0x80 createHeader)))).

(** ** A concrete setting, for running the client *)

Module Sample.
Definition header0 : Header.t :=
  {| Header.magic := 0; Header.opcode := 0; Header.keyLength := 0;
     Header.extrasLength := 0; Header.dataType := 0; Header.status := 0;
     Header.dataLength := 0; Header.opaque := 0; Header.cas := 0 |}.

(** The PLAIN response: an empty authorization identity, the username
    and the password, separated by NUL. *)
Definition collaborators : Collaborators :=
  {| createHeader := header0;
     sasl_plain_response := fun user pass => 0 :: user ++ 0 :: pass |}.

Definition opts0 : Opts.t :=
  {| Opts.host := js "vm-ubuntu"; Opts.port := None;
     Opts.bucket := js "test"; Opts.password := js "password";
     Opts.name := Some (js "test1"); Opts.mode := None;
     Opts.connect := false |}.

(** The same options with a streaming mode given at construction. *)
Definition with_mode (m : Mode.t) (o : Opts.t) : Opts.t :=
  {| Opts.host := Opts.host o; Opts.port := Opts.port o;
     Opts.bucket := Opts.bucket o; Opts.password := Opts.password o;
     Opts.name := Opts.name o; Opts.mode := Some m;
     Opts.connect := Opts.connect o |}.

Definition inbound (op : Z) : Header.t := Header.set_opcode op header0.

(** The mode of the README: backfill from now on, keys only. *)
Definition mode_keys : Mode.t :=
  {| Mode.backfill := Some (-1); Mode.dump := false; Mode.vbuckets := None;
     Mode.takover := false; Mode.enableAcks := false; Mode.keysOnly := true;
     Mode.registred := false |}.

(** A client after a successful handshake, and after a mode request. *)
Definition ready : Client :=
  fields_after (@_onData collaborators (inbound 0x21) [] [] [] (new_Client opts0)).

Definition streaming : Client :=
  fields_after (@setMode collaborators mode_keys ready).

Definition mutation_extras : Buffer :=
  [x00; x03; x00; x00; x00; x00; x00; x00;
   x00; x00; x00; x00; x00; x00; x00; x00]%byte.
Definition mutation_key : Buffer := [x01; x02; x03; "f"; "o"; "o"]%byte.
Definition mutation_body : Buffer := ["b"; "a"; "r"; "b"; "a"; "z"]%byte.
End Sample.

(** ** Classifying effects *)

(** A call on the connection, as opposed to an event for the subscribers. *)
Definition is_conn_call (e : Effect) : bool :=
  match e with
  | Emit _ => false
  | _ => true
  end.

(** The opcode whose decoder emits a decoded event. *)
Definition decoded_opcode (e : Effect) : option Z :=
  match e with
  | Emit (EvMutation _ _ _ _) => Some 0x41
  | Emit (EvDelete _ _ _) => Some 0x42
  | Emit (EvFlush _) => Some 0x43
  | Emit (EvOpaque _ _) => Some 0x44
  | _ => None
  end.

(** Of a packet sent on the connection: it is a request (magic 0x80) for
    one of the three operations the client knows, list mechanisms (0x20),
    authenticate (0x21) and set the streaming mode (0x40).  Other effects
    pass. *)
Definition is_known_request (e : Effect) : bool :=
  match e with
  | ConnSend header _ =>
      (Header.magic header =? 0x80)
      && ((Header.opcode header =? 0x20)
          || (Header.opcode header =? 0x21)
          || (Header.opcode header =? 0x40))
  | _ => true
  end.


(** A byte below 0x80. *)
Definition is_ascii (b : byte) : bool := byte_to_Z b <? 0x80.

(** ** The inputs of a session

    The constructor subscribes the five handlers to the connection; the
    user calls the three methods.  An input is one signal of the
    connection or one call. *)
Inductive Input :=
| OnConnect
| OnError (err : JsError)
| OnClose
| OnData (header : Header.t) (extras key body : Buffer)
| OnEnd
| CallConnect
| CallClose
| CallSetMode (m : Mode.t).

Definition step `{Collaborators} (i : Input) : M unit :=
  match i with
  | OnConnect => _onConnect
  | OnError err => _onError err
  | OnClose => _onClose
  | OnData header extras key body => _onData header extras key body
  | OnEnd => _onEnd
  | CallConnect => connect
  | CallClose => close
  | CallSetMode m => setMode m
  end.

(** The fields after a sequence of inputs, each handled on the fields the
    one before left, also when it threw. *)
Fixpoint fields_after_inputs `{Collaborators} (l : list Input) (c : Client) : Client :=
  match l with
  | [] => c
  | i :: rest => fields_after_inputs rest (fields_after (step i c))
  end.

(** What an input decides about the connected flag: an error, a close and
    an end clear it, an authenticate response sets it when its body is
    empty and clears it otherwise; the other inputs decide nothing. *)
Definition decides (i : Input) : option bool :=
  match i with
  | OnError _ | OnClose | OnEnd => Some false
  | OnData header _ _ body =>
      if Header.opcode header =? 0x21
      then Some (match body with [] => true | _ :: _ => false end)
      else None
  | _ => None
  end.

(** The decision of the last input that decides. *)
Fixpoint last_decision (l : list Input) : option bool :=
  match l with
  | [] => None
  | i :: rest =>
      match last_decision rest with
      | Some d => Some d
      | None => decides i
      end
  end.

(** ** Facts about buffers *)

Section buffers.
Implicit Types (b key body : Buffer) (m : Z).

Lemma Buf_length_nonneg b : 0 <= Buf.length b.
Proof. unfold Buf.length. lia. Qed.

Lemma clamp_nonneg len i : 0 <= len -> 0 <= i -> Buf.clamp len i = Z.min i len.
Proof.
  intros _ Hi. unfold Buf.clamp.
  destruct (Z.ltb_spec i 0); [lia | reflexivity].
Qed.

(** [buf.slice(0, m)] is the first [m] bytes. *)
Lemma slice_prefix b m : 0 <= m -> Buf.slice b 0 m = take (Z.to_nat m) b.
Proof.
  intros Hm. unfold Buf.slice.
  rewrite !clamp_nonneg by (apply Buf_length_nonneg || lia).
  pose proof (Buf_length_nonneg b) as Hlen.
  rewrite (Z.min_l 0) by lia. rewrite Z.sub_0_r.
  change (Z.to_nat 0) with O. rewrite drop_0.
  destruct (Z.le_gt_cases m (Buf.length b)) as [Hle | Hgt].
  - rewrite Z.min_l by lia. reflexivity.
  - rewrite Z.min_r by lia. unfold Buf.length in *.
    rewrite Nat2Z.id. rewrite !take_ge by lia. reflexivity.
Qed.

(** [buf.slice(m, buf.length)] is what follows the first [m] bytes. *)
Lemma slice_suffix b m :
  0 <= m -> Buf.slice b m (Buf.length b) = drop (Z.to_nat m) b.
Proof.
  intros Hm. unfold Buf.slice.
  pose proof (Buf_length_nonneg b) as Hlen.
  rewrite !clamp_nonneg by lia.
  rewrite (Z.min_l (Buf.length b)) by lia.
  destruct (Z.le_gt_cases m (Buf.length b)) as [Hle | Hgt].
  - rewrite Z.min_l by lia. unfold Buf.length in *.
    apply take_ge. rewrite length_drop. lia.
  - rewrite Z.min_r by lia. unfold Buf.length in *.
    rewrite Nat2Z.id, Z.sub_diag. simpl take.
    rewrite !drop_ge by lia. reflexivity.
Qed.

Lemma slice_from_suffix b m :
  0 <= m -> Buf.slice_from b m = drop (Z.to_nat m) b.
Proof. apply slice_suffix. Qed.

Lemma be_value_acc_nonneg (bs : list byte) acc :
  0 <= acc -> 0 <= fold_left (fun a x => a * 256 + byte_to_Z x) bs acc.
Proof.
  revert acc. induction bs as [| x bs IH]; intros acc Hacc; simpl; [lia |].
  apply IH. unfold byte_to_Z. lia.
Qed.

(** A reader that returns gives an unsigned value. *)
Lemma read_be_nonneg width b off v : Buf.read_be width b off = Some v -> 0 <= v.
Proof.
  unfold Buf.read_be. destruct (_ && _); [| discriminate].
  intros [= <-]. apply be_value_acc_nonneg. lia.
Qed.

(** A reader whose bytes are inside the buffer returns. *)
Lemma read_be_in_range width b off :
  0 <= off -> off + width <= Buf.length b ->
  exists v, Buf.read_be width b off = Some v.
Proof.
  intros Hoff Hlen. unfold Buf.read_be.
  destruct (Z.leb_spec 0 off); [| lia].
  destruct (Z.leb_spec (off + width) (Buf.length b)); [| lia].
  simpl. eauto.
Qed.

(** The reconstructed key has the bytes of the key after the first [m],
    then the first [m] bytes of the body. *)
Lemma visible_key_bytes_eq m key body :
  0 <= m ->
  visible_key_bytes m key body
  = drop (Z.to_nat m) key ++ take (Z.to_nat m) body.
Proof.
  intros Hm. unfold visible_key_bytes, Buf.concat. simpl.
  rewrite slice_suffix, slice_prefix by assumption.
  rewrite app_nil_r. reflexivity.
Qed.
End buffers.

(** ** Running the monad *)

Section runs.
Context `{Collaborators}.

Lemma run_bind {A B} (m : M A) (f : A -> M B) c a c1 t1 :
  m c = (Normal a, c1, t1) ->
  (m ≫= f) c = (let '(r, c2, t2) := f a c1 in (r, c2, t1 ++ t2)).
Proof. intros Hm. unfold mbind, M_bind. rewrite Hm. reflexivity. Qed.

Lemma run_bind_throw {A B} (m : M A) (f : A -> M B) c e c1 t1 :
  m c = (Throw e, c1, t1) -> (m ≫= f) c = (Throw e, c1, t1).
Proof. intros Hm. unfold mbind, M_bind. rewrite Hm. reflexivity. Qed.

Lemma run_checked {A} (o : option A) a c :
  o = Some a -> checked o c = (Normal a, c, []).
Proof. intros ->. reflexivity. Qed.

(** A checked read or encoding leaves the fields alone and does nothing
    to the outside, whether it returns or throws. *)
Lemma checked_pure {A} (o : option A) c :
  fields_after (checked o c) = c /\ effects_of (checked o c) = [].
Proof. destruct o; split; reflexivity. Qed.

(** The extras of a decoded event, when the five leading bytes are there. *)
Lemma common_extras_run extras c :
  5 <= Buf.length extras ->
  exists e, common_extras extras c = (Normal e, c, [])
            /\ Buf.readUInt16BE extras 0 = Some (engine e)
            /\ itemFlags e = None /\ itemExpiry e = None.
Proof.
  intros Hlen.
  destruct (read_be_in_range 2 extras 0) as [v0 H0]; [lia | lia |].
  destruct (read_be_in_range 2 extras 2) as [v2 H2]; [lia | lia |].
  destruct (read_be_in_range 1 extras 4) as [v4 H4]; [lia | lia |].
  eexists. split; [| split; [| split]].
  - unfold common_extras, Buf.readUInt16BE, Buf.readUInt8.
    rewrite (run_bind _ _ c v0 c []) by (apply run_checked, H0).
    rewrite (run_bind _ _ c v2 c []) by (apply run_checked, H2).
    rewrite (run_bind _ _ c v4 c []) by (apply run_checked, H4).
    reflexivity.
  - exact H0.
  - reflexivity.
  - reflexivity.
Qed.

(** What the mutation decoder does on a packet whose extras have the
    sixteen bytes of the mutation layout. *)
Lemma _handleMutation_run header extras key body c :
  16 <= Buf.length extras ->
  exists misc,
    _handleMutation header extras key body c
    = (Normal tt, c,
       [Emit (EvMutation
                (Buf.slice key 0 (engine (misc_extras misc)))
                (Buf.toString_utf8
                   (visible_key_bytes (engine (misc_extras misc)) key body))
                (Buf.toString_utf8
                   (Buf.slice_from body (engine (misc_extras misc))))
                misc)])
    /\ Buf.readUInt16BE extras 0 = Some (engine (misc_extras misc))
    /\ misc_header misc = header.
Proof.
  intros Hlen.
  destruct (common_extras_run extras c) as (e & He & Heng & _); [lia |].
  destruct (read_be_in_range 4 extras 8) as [v8 H8]; [lia | lia |].
  destruct (read_be_in_range 4 extras 12) as [v12 H12]; [lia | lia |].
  eexists. split; [| split].
  - unfold _handleMutation, Buf.readUInt32BE.
    rewrite (run_bind _ _ c e c []) by exact He.
    rewrite (run_bind _ _ c v8 c []) by (apply run_checked, H8).
    rewrite (run_bind _ _ c v12 c []) by (apply run_checked, H12).
    reflexivity.
  - exact Heng.
  - reflexivity.
Qed.

(** The same for the delete decoder, which reads the five leading bytes
    of the extras only. *)
Lemma _handleDelete_run header extras key body c :
  5 <= Buf.length extras ->
  exists misc,
    _handleDelete header extras key body c
    = (Normal tt, c,
       [Emit (EvDelete
                (Buf.slice key 0 (engine (misc_extras misc)))
                (Buf.toString_utf8
                   (visible_key_bytes (engine (misc_extras misc)) key body))
                misc)])
    /\ Buf.readUInt16BE extras 0 = Some (engine (misc_extras misc))
    /\ misc_header misc = header.
Proof.
  intros Hlen.
  destruct (common_extras_run extras c) as (e & He & Heng & _); [lia |].
  eexists. split; [| split].
  - unfold _handleDelete.
    rewrite (run_bind _ _ c e c []) by exact He.
    reflexivity.
  - exact Heng.
  - reflexivity.
Qed.
End runs.

(** ** Dispatch of inbound packets *)

Section dispatch.
Context `{Collaborators}.

(** [_onData] emits the raw notification, then runs the handler that the
    table has for the opcode, if any. *)
Lemma _onData_run header extras key body c :
  _onData header extras key body c
  = match handlers !! Header.opcode header with
    | Some handler =>
        let '(r, c2, t2) := handler header extras key body c in
        (r, c2, Emit (EvData header extras key body) :: t2)
    | None => (Normal tt, c, [Emit (EvData header extras key body)])
    end.
Proof.
  unfold _onData.
  rewrite (run_bind _ _ c tt c [Emit (EvData header extras key body)])
    by reflexivity.
  destruct (handlers !! Header.opcode header) as [handler |].
  - destruct (handler header extras key body c) as [[r c2] t2]. reflexivity.
  - reflexivity.
Qed.

Lemma handlers_0x20 : handlers !! 0x20 = Some _handleSASLMechs.
Proof. reflexivity. Qed.

Lemma handlers_0x21 : handlers !! 0x21 = Some _handleSASLAuth.
Proof. reflexivity. Qed.

Lemma handlers_0x41 : handlers !! 0x41 = Some _handleMutation.
Proof. reflexivity. Qed.

Lemma handlers_0x42 : handlers !! 0x42 = Some _handleDelete.
Proof. reflexivity. Qed.

(** An opcode outside the table has no handler. *)
Lemma handlers_unknown (op : Z) :
  op ∉ [0x20; 0x21; 0x41; 0x42; 0x43; 0x44] -> handlers !! op = None.
Proof.
  intros Hop. unfold handlers.
  repeat (rewrite lookup_insert_ne
            by (intros <-; apply Hop; repeat constructor)).
  apply lookup_empty.
Qed.
End dispatch.

(** ** The event decoders *)

(** C1: for a mutation packet (opcode 0x41, extras with the sixteen bytes
    of the mutation layout) whose extras start with the 16-bit number [m],
    the session emits the raw notification and then one [mutation] event
    whose meta is the first [m] bytes of the key region, whose key is the
    UTF-8 string of the key region after its first [m] bytes followed by
    the first [m] bytes of the body region, and whose value is the UTF-8
    string of the body region after its first [m] bytes.  At the packet of
    the decoding scenario this gives meta 01 02 03, key "foobar" and value
    "baz". *)
Theorem mutation_decoding `{Collaborators} header extras key body c m :
  Header.opcode header = 0x41 ->
  16 <= Buf.length extras ->
  Buf.readUInt16BE extras 0 = Some m ->
  exists misc,
    _onData header extras key body c
    = (Normal tt, c,
       [Emit (EvData header extras key body);
        Emit (EvMutation
                (take (Z.to_nat m) key)
                (Buf.toString_utf8
                   (drop (Z.to_nat m) key ++ take (Z.to_nat m) body))
                (Buf.toString_utf8 (drop (Z.to_nat m) body))
                misc)])
    /\ engine (misc_extras misc) = m
    /\ misc_header misc = header.
Proof.
  intros Hop Hlen Hm.
  destruct (_handleMutation_run header extras key body c Hlen)
    as (misc & Hrun & Heng & Hhdr).
  assert (engine (misc_extras misc) = m) as Hmeta by congruence.
  assert (0 <= m) as Hpos by (eapply read_be_nonneg; exact Hm).
  exists misc. split; [| split; assumption].
  rewrite _onData_run, Hop, handlers_0x41, Hrun, Hmeta.
  rewrite slice_prefix, visible_key_bytes_eq, slice_from_suffix by assumption.
  reflexivity.
Qed.

Lemma mutation_decoding_scenario :
  exists misc,
    @_onData Sample.collaborators (Sample.inbound 0x41) Sample.mutation_extras
      Sample.mutation_key Sample.mutation_body Sample.streaming
    = (Normal tt, Sample.streaming,
       [Emit (EvData (Sample.inbound 0x41) Sample.mutation_extras
                Sample.mutation_key Sample.mutation_body);
        Emit (EvMutation [x01; x02; x03]%byte (js "foobar") (js "baz") misc)])
    /\ engine (misc_extras misc) = 3.
Proof.
  destruct (@mutation_decoding Sample.collaborators (Sample.inbound 0x41)
              Sample.mutation_extras Sample.mutation_key Sample.mutation_body
              Sample.streaming 3)
    as (misc & Hrun & Heng & _).
  - reflexivity.
  - vm_compute. discriminate.
  - reflexivity.
  - exists misc. split; [exact Hrun | exact Heng].
Defined.

(** C10: in a mutation or delete packet whose meta length [m] is at most
    the length of the key region and at most the length of the body
    region, the bytes of the reconstructed key are as many as the bytes of
    the key region; the key that the [mutation] and the [delete] event
    carry is the UTF-8 string of these bytes. *)
Theorem visible_key_same_length `{Collaborators} header extras key body c m :
  Buf.readUInt16BE extras 0 = Some m ->
  m <= Buf.length key ->
  m <= Buf.length body ->
  Buf.length (visible_key_bytes m key body) = Buf.length key
  /\ (16 <= Buf.length extras ->
      exists metas value misc,
        _handleMutation header extras key body c
        = (Normal tt, c,
           [Emit (EvMutation metas
                    (Buf.toString_utf8 (visible_key_bytes m key body))
                    value misc)]))
  /\ (5 <= Buf.length extras ->
      exists metas misc,
        _handleDelete header extras key body c
        = (Normal tt, c,
           [Emit (EvDelete metas
                    (Buf.toString_utf8 (visible_key_bytes m key body))
                    misc)])).
Proof.
  intros Hm Hkey Hbody.
  assert (0 <= m) as Hpos by (eapply read_be_nonneg; exact Hm).
  split; [| split].
  - rewrite visible_key_bytes_eq by assumption.
    unfold Buf.length in *.
    rewrite length_app, length_drop, length_take. lia.
  - intros Hlen.
    destruct (_handleMutation_run header extras key body c Hlen)
      as (misc & Hrun & Heng & _).
    assert (engine (misc_extras misc) = m) as Hmeta by congruence.
    rewrite Hmeta in Hrun. eauto.
  - intros Hlen.
    destruct (_handleDelete_run header extras key body c Hlen)
      as (misc & Hrun & Heng & _).
    assert (engine (misc_extras misc) = m) as Hmeta by congruence.
    rewrite Hmeta in Hrun. eauto.
Qed.

Lemma visible_key_same_length_scenario :
  Buf.length (visible_key_bytes 3 Sample.mutation_key Sample.mutation_body) = 6
  /\ (exists metas value misc,
        _handleMutation (Sample.inbound 0x41)
          Sample.mutation_extras Sample.mutation_key Sample.mutation_body
          Sample.streaming
        = (Normal tt, Sample.streaming,
           [Emit (EvMutation metas (js "foobar") value misc)]))
  /\ (exists metas misc,
        _handleDelete (Sample.inbound 0x41)
          Sample.mutation_extras Sample.mutation_key Sample.mutation_body
          Sample.streaming
        = (Normal tt, Sample.streaming,
           [Emit (EvDelete metas (js "foobar") misc)])).
Proof.
  destruct (@visible_key_same_length Sample.collaborators
              (Sample.inbound 0x41) Sample.mutation_extras
              Sample.mutation_key Sample.mutation_body Sample.streaming 3)
    as (Hlen & Hmut & Hdel).
  - reflexivity.
  - vm_compute. discriminate.
  - vm_compute. discriminate.
  - split; [exact Hlen | split].
    + apply Hmut. vm_compute. discriminate.
    + apply Hdel. vm_compute. discriminate.
Defined.

(** ** The UTF-8 decoder never loses a whole input *)

Section utf8.
Import Buf.

Lemma utf8_lead_progress v :
  fst (utf8_lead v) <> [] \/ bytes_needed (snd (utf8_lead v)) <> 0.
Proof.
  unfold utf8_lead.
  destruct (v <=? 0x7F); [left; discriminate |].
  destruct ((0xC2 <=? v) && (v <=? 0xDF)); [right; discriminate |].
  destruct ((0xE0 <=? v) && (v <=? 0xEF)); [right; discriminate |].
  destruct ((0xF0 <=? v) && (v <=? 0xF4)); [right; discriminate |].
  left; discriminate.
Qed.

(** When a sequence is open or a byte is left, the decoder gives at
    least one code point. *)
Lemma utf8_run_nonempty bs : forall st,
  bytes_needed st <> 0 \/ bs <> [] -> utf8_run st bs <> [].
Proof.
  induction bs as [| b rest IH]; intros st Hst; simpl.
  - destruct Hst as [Hopen | Hnil]; [| congruence].
    destruct (Z.eqb_spec (bytes_needed st) 0); [contradiction | discriminate].
  - destruct (Z.eqb_spec (bytes_needed st) 0) as [Hclosed | Hopen].
    + destruct (utf8_lead_progress (byte_to_Z b)) as [Hout | Hnext];
        destruct (utf8_lead (byte_to_Z b)) as [out st']; simpl in *.
      * destruct out; [contradiction | discriminate].
      * intros Happ. apply app_eq_nil in Happ as [_ Hrun].
        revert Hrun. apply IH. left. exact Hnext.
    + destruct (_ && _).
      * destruct (Z.eqb_spec (bytes_seen st + 1) (bytes_needed st));
          [discriminate |].
        apply IH. left. exact Hopen.
      * destruct (utf8_lead (byte_to_Z b)). discriminate.
Qed.

Lemma utf16_units_nonempty cp : utf16_units cp <> [].
Proof. unfold utf16_units. destruct (cp <? 0x10000); discriminate. Qed.

(** [buf.toString('utf8')] is the empty string for the empty buffer
    only. *)
Lemma toString_utf8_nonempty (body : Buffer) :
  body <> [] -> toString_utf8 body <> [].
Proof.
  intros Hbody. unfold toString_utf8.
  pose proof (utf8_run_nonempty body utf8_init (or_intror Hbody)) as Hrun.
  destruct (utf8_run utf8_init body) as [| cp cps]; [contradiction |].
  simpl. pose proof (utf16_units_nonempty cp) as Hcp.
  destruct (utf16_units cp); [contradiction | discriminate].
Qed.
End utf8.

(** ** The handshake *)

(** [_onError] clears the connected flag first; then the error reaches the
    subscribers when one listens to [error], and is thrown when none
    does. *)
Lemma _onError_run (err : JsError) c :
  _onError err c
  = if listens_error c
    then (Normal tt, set_connected false c, [Emit (EvError err)])
    else (Throw err, set_connected false c, []).
Proof.
  unfold _onError.
  rewrite (run_bind _ _ c tt (set_connected false c) []) by reflexivity.
  unfold emit.
  rewrite (run_bind _ _ (set_connected false c) (set_connected false c)
             (set_connected false c) []) by reflexivity.
  cbn [listens_error set_connected].
  destruct (listens_error c); reflexivity.
Qed.

(** C3: for a packet with opcode 0x21 and a body that is not empty, the
    body read as UTF-8 is a message that is not empty; the session emits
    the raw notification, clears the connected flag and raises an error
    with that message, and it never emits [connect].  When a subscriber
    listens to [error], the error is delivered as the [error] event and
    the transport is closed after it.  When nobody listens, as on a client
    that was just built, the error is thrown out of [_onData] by the
    emitter and the call that closes the transport is not reached. *)
Theorem auth_failure `{Collaborators} header extras key body c :
  Header.opcode header = 0x21 ->
  body <> [] ->
  Buf.toString_utf8 body <> []
  /\ fields_after (_onData header extras key body c) = set_connected false c
  /\ (Emit EvConnect ∉ effects_of (_onData header extras key body c))
  /\ (listens_error c = true ->
      _onData header extras key body c
      = (Normal tt, set_connected false c,
         [Emit (EvData header extras key body);
          Emit (EvError (Error (Buf.toString_utf8 body)));
          ConnClose]))
  /\ (listens_error c = false ->
      _onData header extras key body c
      = (Throw (Error (Buf.toString_utf8 body)), set_connected false c,
         [Emit (EvData header extras key body)])).
Proof.
  intros Hop Hbody.
  pose proof (toString_utf8_nonempty body Hbody) as Hstatus.
  assert (_onData header extras key body c
          = if listens_error c
            then (Normal tt, set_connected false c,
                  [Emit (EvData header extras key body);
                   Emit (EvError (Error (Buf.toString_utf8 body)));
                   ConnClose])
            else (Throw (Error (Buf.toString_utf8 body)),
                  set_connected false c,
                  [Emit (EvData header extras key body)])) as Hrun.
  { rewrite _onData_run, Hop, handlers_0x21. unfold _handleSASLAuth.
    destruct (Buf.toString_utf8 body) as [| u rest]; [contradiction |].
    unfold mbind, M_bind. rewrite _onError_run.
    destruct (listens_error c); reflexivity. }
  split; [exact Hstatus |].
  rewrite Hrun. unfold fields_after, effects_of.
  destruct (listens_error c); cbn [fst snd];
    (split; [reflexivity | split; [| split; intros Hl; congruence]]).
  - rewrite !elem_of_cons. intros [Heq | [Heq | [Heq | Hin]]];
      try discriminate. inversion Hin.
  - rewrite !elem_of_cons. intros [Heq | Hin]; [discriminate | inversion Hin].
Qed.

Lemma auth_failure_scenario :
  @_onData Sample.collaborators (Sample.inbound 0x21) [] []
    (Buf.from_string (js "Auth failure")) (on_error (new_Client Sample.opts0))
  = (Normal tt, on_error (new_Client Sample.opts0),
     [Emit (EvData (Sample.inbound 0x21) [] []
              (Buf.from_string (js "Auth failure")));
      Emit (EvError (Error (js "Auth failure")));
      ConnClose])
  /\ @_onData Sample.collaborators (Sample.inbound 0x21) [] []
       (Buf.from_string (js "Auth failure")) (new_Client Sample.opts0)
     = (Throw (Error (js "Auth failure")), new_Client Sample.opts0,
        [Emit (EvData (Sample.inbound 0x21) [] []
                 (Buf.from_string (js "Auth failure")))]).
Proof.
  split.
  - refine (proj1 (proj2 (proj2 (proj2
              (@auth_failure Sample.collaborators (Sample.inbound 0x21) [] []
                 (Buf.from_string (js "Auth failure"))
                 (on_error (new_Client Sample.opts0)) _ _)))) _).
    + reflexivity.
    + vm_compute. discriminate.
    + reflexivity.
  - refine (proj2 (proj2 (proj2 (proj2
              (@auth_failure Sample.collaborators (Sample.inbound 0x21) [] []
                 (Buf.from_string (js "Auth failure"))
                 (new_Client Sample.opts0) _ _)))) _).
    + reflexivity.
    + vm_compute. discriminate.
    + reflexivity.
Defined.

(** ** The streaming-mode request *)

Section setMode_facts.
Context `{Collaborators}.

(** A step that leaves the fields alone and does nothing to the
    outside, followed by the rest of the method. *)
Lemma bind_quiet {A B} (s : M A) (f : A -> M B) c r :
  s c = (r, c, []) ->
  (s ≫= f) c = match r with
               | Normal a => f a c
               | Throw e => (Throw e, c, [])
               end.
Proof.
  intros Hs. unfold mbind, M_bind. rewrite Hs.
  destruct r as [a | e]; [| reflexivity].
  destruct (f a c) as [[r2 c2] t2]. reflexivity.
Qed.

(** The encoders leave the fields alone, do nothing to the outside, and
    complete the same way on every client. *)
Lemma checked_quiet {A} (o : option A) :
  exists r, forall c, checked o c = (r, c, []).
Proof. destruct o; eexists; reflexivity. Qed.

Lemma forEach_checked_quiet {A B} (f : A -> option B) (l : list A) :
  exists r, forall c, forEach (fun v => checked (f v)) l c = (r, c, []).
Proof.
  induction l as [| x rest [r IH]]; simpl.
  - eexists. reflexivity.
  - destruct (f x) as [y |] eqn:Hx.
    + destruct r as [ys | e].
      * exists (Normal (y :: ys)). intros c.
        rewrite (bind_quiet _ _ c (Normal y)) by reflexivity.
        rewrite (bind_quiet _ _ c (Normal ys)) by apply IH.
        reflexivity.
      * exists (Throw e). intros c.
        rewrite (bind_quiet _ _ c (Normal y)) by reflexivity.
        rewrite (bind_quiet _ _ c (Throw e)) by apply IH.
        reflexivity.
    + exists (Throw RangeError). intros c.
      rewrite (bind_quiet _ _ c (Throw RangeError)) by reflexivity.
      reflexivity.
Qed.

Lemma forEach_checked_run {A B} (f : A -> option B) (l : list A) c :
  forallb (fun v => truthy_object (f v)) l = true ->
  exists ys, forEach (fun v => checked (f v)) l c = (Normal ys, c, []).
Proof.
  induction l as [| x rest IH]; simpl; intros Hall.
  - eexists. reflexivity.
  - apply andb_true_iff in Hall as [Hx Hrest].
    destruct (IH Hrest) as [ys Hys].
    destruct (f x) as [y |]; [| discriminate].
    rewrite (bind_quiet _ _ c (Normal y)) by reflexivity.
    rewrite (bind_quiet _ _ c (Normal ys)) by exact Hys.
    eexists. reflexivity.
Qed.

Lemma backfill_chunks_quiet m :
  exists r, forall c, backfill_chunks m c = (r, c, []).
Proof.
  unfold backfill_chunks. destruct (truthy_number _); [| eexists; reflexivity].
  destruct (Int64.buffer (default 0 (Mode.backfill m))) as [b |];
    eexists; reflexivity.
Qed.

Lemma vbuckets_chunks_quiet m :
  exists r, forall c, vbuckets_chunks m c = (r, c, []).
Proof.
  unfold vbuckets_chunks. destruct (Mode.vbuckets m) as [vbs |];
    [| eexists; reflexivity].
  destruct (factory.createUInt16BE (Z.of_nat (List.length vbs))) as [n |];
    [| eexists; reflexivity].
  destruct (forEach_checked_quiet factory.createUInt16BE vbs) as [r Hids].
  destruct r as [ids | e].
  - exists (Normal (n :: ids)). intros c.
    rewrite (bind_quiet _ _ c (Normal n)) by reflexivity.
    rewrite (bind_quiet _ _ c (Normal ids)) by apply Hids.
    reflexivity.
  - exists (Throw e). intros c.
    rewrite (bind_quiet _ _ c (Normal n)) by reflexivity.
    rewrite (bind_quiet _ _ c (Throw e)) by apply Hids.
    reflexivity.
Qed.

Lemma chunks_run m c :
  mode_encodable m = true ->
  exists chunks1 chunks2,
    backfill_chunks m c = (Normal chunks1, c, [])
    /\ vbuckets_chunks m c = (Normal chunks2, c, []).
Proof.
  unfold mode_encodable. intros Henc.
  apply andb_true_iff in Henc as [Hback Hvb].
  assert (exists chunks1, backfill_chunks m c = (Normal chunks1, c, []))
    as [chunks1 H1].
  { unfold backfill_chunks. destruct (truthy_number _);
      [| eexists; reflexivity].
    destruct (Int64.buffer _) as [b |]; [| discriminate].
    eexists. reflexivity. }
  assert (exists chunks2, vbuckets_chunks m c = (Normal chunks2, c, []))
    as [chunks2 H2].
  { unfold vbuckets_chunks. destruct (Mode.vbuckets m) as [vbs |];
      [| eexists; reflexivity].
    apply andb_true_iff in Hvb as [Hn Hids].
    destruct (factory.createUInt16BE (Z.of_nat _)) as [n |];
      [| discriminate].
    destruct (forEach_checked_run factory.createUInt16BE vbs c Hids)
      as [ids Hrun].
    rewrite (bind_quiet _ _ c (Normal n)) by reflexivity.
    rewrite (bind_quiet _ _ c (Normal ids)) by exact Hrun.
    eexists. reflexivity. }
  eauto.
Qed.

(** The flag word always fits 32 bits. *)
Lemma createUInt32BE_flags m :
  factory.createUInt32BE (mode_flags m)
  = Some (factory.be_bytes 4 (mode_flags m)).
Proof.
  unfold mode_flags.
  destruct (truthy_number _), (Mode.dump m), (truthy_object _),
    (Mode.takover m), (Mode.enableAcks m), (Mode.keysOnly m),
    (Mode.registred m); reflexivity.
Qed.

(** The guard of [setMode]. *)
Lemma setMode_not_connected m c :
  _connected c = false -> setMode m c = (Normal tt, c, []).
Proof.
  intros Hc. unfold setMode.
  rewrite (bind_quiet _ _ c (Normal c)) by reflexivity.
  rewrite Hc. reflexivity.
Qed.

(** What [setMode] does on a connected client, from the way the two
    groups of chunks complete. *)
Lemma setMode_shape m c r1 r2 :
  _connected c = true ->
  (forall c', backfill_chunks m c' = (r1, c', [])) ->
  (forall c', vbuckets_chunks m c' = (r2, c', [])) ->
  setMode m c
  = match r1, r2 with
    | Normal chunks1, Normal chunks2 =>
        let extras := factory.be_bytes 4 (mode_flags m) in
        let key := Buffer_of_string_or_0 (Opts.name (opts c)) in
        let body := Buf.concat (chunks1 ++ chunks2) in
        (Normal tt, set_mode m c,
         [ConnSend (mode_request_header extras key body) [extras; key; body]])
    | Normal _, Throw e => (Throw e, set_mode m c, [])
    | Throw e, _ => (Throw e, set_mode m c, [])
    end.
Proof.
  intros Hc H1 H2. unfold setMode.
  rewrite (bind_quiet _ _ c (Normal c)) by reflexivity.
  rewrite Hc. cbn [negb].
  rewrite (run_bind _ _ c tt (set_mode m c) []) by reflexivity.
  rewrite (bind_quiet _ _ (set_mode m c)
             (Normal (factory.be_bytes 4 (mode_flags m))))
    by (apply run_checked, createUInt32BE_flags).
  rewrite (bind_quiet _ _ (set_mode m c) r1) by apply H1.
  destruct r1 as [chunks1 | e]; [| reflexivity].
  rewrite (bind_quiet _ _ (set_mode m c) r2) by apply H2.
  destruct r2 as [chunks2 | e]; reflexivity.
Qed.

(** An honoured request, for a mode that can be encoded. *)
Lemma setMode_connected m c :
  _connected c = true ->
  mode_encodable m = true ->
  exists chunks1 chunks2,
    let extras := factory.be_bytes 4 (mode_flags m) in
    let key := Buffer_of_string_or_0 (Opts.name (opts c)) in
    let body := Buf.concat (chunks1 ++ chunks2) in
    setMode m c
    = (Normal tt, set_mode m c,
       [ConnSend (mode_request_header extras key body) [extras; key; body]])
    /\ (forall c', backfill_chunks m c' = (Normal chunks1, c', []))
    /\ (forall c', vbuckets_chunks m c' = (Normal chunks2, c', [])).
Proof.
  intros Hc Henc.
  destruct (backfill_chunks_quiet m) as [r1 H1].
  destruct (vbuckets_chunks_quiet m) as [r2 H2].
  destruct (chunks_run m c Henc) as (chunks1 & chunks2 & E1 & E2).
  rewrite H1 in E1. rewrite H2 in E2.
  injection E1 as ->. injection E2 as ->.
  exists chunks1, chunks2. cbv zeta.
  split; [| split; assumption].
  rewrite (setMode_shape m c _ _ Hc H1 H2). reflexivity.
Qed.

(** Whatever happens in [setMode], it changes the field [mode] only,
    and only when the client is connected. *)
Lemma setMode_fields m c :
  fields_after (setMode m c) = if _connected c then set_mode m c else c.
Proof.
  destruct (_connected c) eqn:Hc;
    [| rewrite setMode_not_connected by exact Hc; reflexivity].
  destruct (backfill_chunks_quiet m) as [r1 H1].
  destruct (vbuckets_chunks_quiet m) as [r2 H2].
  rewrite (setMode_shape m c _ _ Hc H1 H2).
  destruct r1, r2; reflexivity.
Qed.

Lemma mode_request_header_opcode extras key body :
  Header.opcode (mode_request_header extras key body) = 0x40.
Proof. reflexivity. Qed.
End setMode_facts.

Lemma state_of_not_connected c :
  state_of c = NotConnected <-> _connected c = false.
Proof.
  unfold state_of. destruct (_connected c); [| tauto].
  destruct (mode c); split; discriminate.
Qed.

Lemma state_of_connected c :
  state_of c = Ready \/ state_of c = Streaming <-> _connected c = true.
Proof.
  unfold state_of. destruct (_connected c).
  - destruct (mode c); tauto.
  - split; [intros [? | ?] |]; discriminate.
Qed.

(** C4: for a packet with opcode 0x21 and an empty body the session sets
    its connected flag.  When a mode was given at construction (one whose
    numbers can be encoded), it sends the mode request with opcode 0x40 at
    once and then emits [connect]; when none was given it emits [connect]
    and sends nothing. *)
Theorem auth_success `{Collaborators} header extras key c :
  Header.opcode header = 0x21 ->
  _connected (fields_after (_onData header extras key [] c)) = true
  /\ (forall m,
        Opts.mode (opts c) = Some m -> mode_encodable m = true ->
        exists hdr ex k b,
          _onData header extras key [] c
          = (Normal tt, set_mode m (set_connected true c),
             [Emit (EvData header extras key []);
              ConnSend hdr [ex; k; b];
              Emit EvConnect])
          /\ Header.opcode hdr = 0x40)
  /\ (Opts.mode (opts c) = None ->
      _onData header extras key [] c
      = (Normal tt, set_connected true c,
         [Emit (EvData header extras key []); Emit EvConnect])).
Proof.
  intros Hop.
  assert (_onData header extras key [] c
          = let '(r, c2, t2) :=
              (match Opts.mode (opts c) with
               | Some m => setMode m
               | None => mret tt
               end ≫= fun _ => emit EvConnect) (set_connected true c) in
            (r, c2, Emit (EvData header extras key []) :: t2)) as Hrun.
  { rewrite _onData_run, Hop, handlers_0x21. unfold _handleSASLAuth.
    change (Buf.toString_utf8 []) with (@nil Z). cbv iota.
    rewrite (run_bind _ _ c tt (set_connected true c) []) by reflexivity.
    rewrite (bind_quiet _ _ (set_connected true c)
               (Normal (set_connected true c))) by reflexivity.
    cbn [opts set_connected].
    destruct (_ ≫= _) as [[r c2] t2]. reflexivity. }
  rewrite Hrun. clear Hrun. split; [| split].
  - destruct (Opts.mode (opts c)) as [m |]; [| reflexivity].
    pose proof (setMode_fields m (set_connected true c)) as Hfields.
    cbn [_connected set_connected] in Hfields.
    unfold mbind, M_bind.
    destruct (setMode m (set_connected true c)) as [[r c1] t1].
    unfold fields_after in Hfields. cbn [fst snd] in Hfields. subst c1.
    destruct r; reflexivity.
  - intros m Hm Henc. rewrite Hm.
    destruct (setMode_connected m (set_connected true c) eq_refl Henc)
      as (chunks1 & chunks2 & Hset & _).
    cbv zeta in Hset.
    unfold mbind, M_bind. rewrite Hset.
    do 4 eexists. split; [reflexivity | reflexivity].
  - intros Hm. rewrite Hm. reflexivity.
Qed.

Lemma auth_success_scenario :
  @_onData Sample.collaborators (Sample.inbound 0x21) [] [] []
    (new_Client Sample.opts0)
  = (Normal tt, set_connected true (new_Client Sample.opts0),
     [Emit (EvData (Sample.inbound 0x21) [] [] []); Emit EvConnect])
  /\ exists hdr ex k b,
       @_onData Sample.collaborators (Sample.inbound 0x21) [] [] []
         (new_Client (Sample.with_mode Sample.mode_keys Sample.opts0))
       = (Normal tt,
          set_mode Sample.mode_keys
            (set_connected true
               (new_Client (Sample.with_mode Sample.mode_keys Sample.opts0))),
          [Emit (EvData (Sample.inbound 0x21) [] [] []);
           ConnSend hdr [ex; k; b];
           Emit EvConnect])
       /\ Header.opcode hdr = 0x40.
Proof.
  split.
  - refine (proj2 (proj2 (@auth_success Sample.collaborators
                            (Sample.inbound 0x21) [] []
                            (new_Client Sample.opts0) _)) _);
      reflexivity.
  - refine (proj1 (proj2 (@auth_success Sample.collaborators
                            (Sample.inbound 0x21) [] []
                            (new_Client
                               (Sample.with_mode Sample.mode_keys Sample.opts0))
                            _)) Sample.mode_keys _ _);
      reflexivity.
Defined.

(** C5, as the specification has it, fails: a session that is already
    streaming is not in state Ready, and its [setMode] still sends a
    request. *)
Lemma setMode_honoured_while_streaming :
  ~ (forall (H : Collaborators) (m : Mode.t) (c : Client),
       state_of c <> Ready -> setMode m c = (Normal tt, c, [])).
Proof.
  intros Hclaim.
  specialize (Hclaim Sample.collaborators Sample.mode_keys Sample.streaming).
  assert (state_of Sample.streaming <> Ready) as Hstate
    by (vm_compute; discriminate).
  specialize (Hclaim Hstate). vm_compute in Hclaim. discriminate Hclaim.
Qed.

(** C5, amended: [setMode] is guarded by the connected flag alone.  On a
    session that is not connected it sends nothing and changes nothing; on
    a connected one, Ready or already Streaming, a mode whose numbers can
    be encoded is recorded and one request with opcode 0x40 is sent, after
    which the session is Streaming. *)
Theorem setMode_guard `{Collaborators} m c :
  (state_of c = NotConnected -> setMode m c = (Normal tt, c, []))
  /\ (state_of c = Ready \/ state_of c = Streaming ->
      mode_encodable m = true ->
      exists hdr ex k b,
        setMode m c = (Normal tt, set_mode m c, [ConnSend hdr [ex; k; b]])
        /\ Header.opcode hdr = 0x40
        /\ state_of (set_mode m c) = Streaming).
Proof.
  split.
  - intros Hs. apply setMode_not_connected, state_of_not_connected, Hs.
  - intros Hs Henc. apply state_of_connected in Hs.
    destruct (setMode_connected m c Hs Henc) as (chunks1 & chunks2 & Hset & _).
    cbv zeta in Hset. do 4 eexists. split; [exact Hset |].
    split; [reflexivity |].
    unfold state_of. cbn [_connected mode set_mode]. rewrite Hs. reflexivity.
Qed.

Lemma setMode_guard_scenario :
  @setMode Sample.collaborators Sample.mode_keys (new_Client Sample.opts0)
  = (Normal tt, new_Client Sample.opts0, [])
  /\ exists hdr ex k b,
       @setMode Sample.collaborators Sample.mode_keys Sample.streaming
       = (Normal tt, set_mode Sample.mode_keys Sample.streaming,
          [ConnSend hdr [ex; k; b]])
       /\ Header.opcode hdr = 0x40
       /\ state_of (set_mode Sample.mode_keys Sample.streaming) = Streaming.
Proof.
  split.
  - apply (proj1 (@setMode_guard Sample.collaborators Sample.mode_keys
                    (new_Client Sample.opts0))).
    reflexivity.
  - apply (proj2 (@setMode_guard Sample.collaborators Sample.mode_keys
                    Sample.streaming)).
    + right. reflexivity.
    + reflexivity.
Defined.

(** C6: on a connected session, [setMode] with the mode
    [{backfill: -1, keysOnly: true}] sends one request with opcode 0x40
    whose flag word has bit 0 and bit 5 set and no other, whose extras are
    that word in four big-endian bytes, and whose body is the eight bytes
    FF of the two's complement of -1. *)
Theorem setMode_backfill_keysOnly `{Collaborators} c :
  _connected c = true ->
  (forall i, Z.testbit (mode_flags Sample.mode_keys) i = true <-> i = 0 \/ i = 5)
  /\ exists hdr,
       setMode Sample.mode_keys c
       = (Normal tt, set_mode Sample.mode_keys c,
          [ConnSend hdr
             [[x00; x00; x00; x21]%byte;
              Buffer_of_string_or_0 (Opts.name (opts c));
              [xff; xff; xff; xff; xff; xff; xff; xff]%byte]])
       /\ Header.opcode hdr = 0x40
       /\ Header.extrasLength hdr = 4
       /\ Header.dataLength hdr
          = 4 + Buf.length (Buffer_of_string_or_0 (Opts.name (opts c))) + 8
       /\ Buf.be_value [xff; xff; xff; xff; xff; xff; xff; xff]%byte
          = (-1) mod 2 ^ 64.
Proof.
  intros Hc. split.
  - intros i. change (mode_flags Sample.mode_keys) with 33.
    destruct (Z.lt_ge_cases i 0) as [Hneg | Hpos].
    { rewrite Z.testbit_neg_r by exact Hneg. split; [discriminate | lia]. }
    destruct (Z.lt_ge_cases i 6) as [Hsmall | Hbig].
    + assert (i = 0 \/ i = 1 \/ i = 2 \/ i = 3 \/ i = 4 \/ i = 5) as Hi by lia.
      destruct Hi as [-> | [-> | [-> | [-> | [-> | ->]]]]]; simpl;
        split; intros Hbit; try discriminate; try lia; reflexivity.
    + rewrite Z.bits_above_log2 by (simpl; lia).
      split; [discriminate | lia].
  - eexists. split.
    + rewrite (setMode_shape Sample.mode_keys c
                 (Normal [[xff; xff; xff; xff; xff; xff; xff; xff]%byte])
                 (Normal []) Hc)
        by reflexivity.
      reflexivity.
    + repeat split; reflexivity.
Qed.

Lemma setMode_backfill_keysOnly_scenario :
  exists hdr,
    @setMode Sample.collaborators Sample.mode_keys Sample.ready
    = (Normal tt, Sample.streaming,
       [ConnSend hdr
          [[x00; x00; x00; x21]%byte;
           ["t"; "e"; "s"; "t"; "1"]%byte;
           [xff; xff; xff; xff; xff; xff; xff; xff]%byte]])
    /\ Header.opcode hdr = 0x40
    /\ Header.dataLength hdr = 17.
Proof.
  destruct (@setMode_backfill_keysOnly Sample.collaborators Sample.ready)
    as (_ & hdr & Hrun & Hop & _ & Hlen & _).
  - reflexivity.
  - exists hdr. split; [exact Hrun | split; [exact Hop | exact Hlen]].
Defined.

(** ** Inbound packets: the handshake reply and the raw notification *)

(** *** Splitting a string at a separator *)









(** C7: whatever the fields of the session and the opcode, the first thing
    [_onData] does is to emit [data] with the header, the extras, the key
    and the body it was given; what follows are the effects of the handler
    of the opcode, if there is one. *)
Theorem data_notification_first `{Collaborators} header extras key body c :
  exists rest,
    effects_of (_onData header extras key body c)
    = Emit (EvData header extras key body) :: rest
    /\ rest = match handlers !! Header.opcode header with
              | Some handler => effects_of (handler header extras key body c)
              | None => []
              end.
Proof.
  rewrite _onData_run.
  destruct (handlers !! Header.opcode header) as [handler |].
  - destruct (handler header extras key body c) as [[r c2] t2].
    exists t2. split; reflexivity.
  - exists []. split; reflexivity.
Qed.

(** C8: for a packet whose opcode is none of 0x20, 0x21, 0x41, 0x42, 0x43
    and 0x44, [_onData] emits the raw notification and nothing else, so no
    decoded event, and leaves the fields of the session as they were. *)
Theorem unknown_opcode_ignored `{Collaborators} header extras key body c :
  Header.opcode header ∉ [0x20; 0x21; 0x41; 0x42; 0x43; 0x44] ->
  _onData header extras key body c
  = (Normal tt, c, [Emit (EvData header extras key body)])
  /\ Forall (fun e => is_decoded e = false)
       (effects_of (_onData header extras key body c))
  /\ state_of (fields_after (_onData header extras key body c)) = state_of c.
Proof.
  intros Hop.
  assert (_onData header extras key body c
          = (Normal tt, c, [Emit (EvData header extras key body)])) as Hrun.
  { rewrite _onData_run, (handlers_unknown _ Hop). reflexivity. }
  rewrite Hrun. split; [reflexivity | split; [| reflexivity]].
  repeat constructor.
Qed.

Lemma unknown_opcode_ignored_scenario :
  @_onData Sample.collaborators (Sample.inbound 0x99) [] [] [] Sample.streaming
  = (Normal tt, Sample.streaming,
     [Emit (EvData (Sample.inbound 0x99) [] [] [])])
  /\ state_of Sample.streaming = Streaming.
Proof.
  split; [| reflexivity].
  refine (proj1 (@unknown_opcode_ignored Sample.collaborators
                   (Sample.inbound 0x99) [] [] [] Sample.streaming _)).
  intros Hin.
  repeat (apply elem_of_cons in Hin as [Heq | Hin]; [discriminate Heq |]).
  inversion Hin.
Defined.

(** ** More on the event decoders *)

Section decoders.
Context `{Collaborators}.

(** [buf.slice(s, e)] for indices in order: out of range it is clamped,
    it does not throw. *)
Lemma slice_range (b : Buffer) s e :
  0 <= s -> s <= e ->
  Buf.slice b s e = take (Z.to_nat (e - s)) (drop (Z.to_nat s) b).
Proof.
  intros Hs He. unfold Buf.slice.
  pose proof (Buf_length_nonneg b) as Hlen.
  rewrite !clamp_nonneg by lia. unfold Buf.length in *.
  destruct (Z.le_gt_cases e (Z.of_nat (List.length b))) as [Hin | Hout].
  - rewrite !Z.min_l by lia. reflexivity.
  - rewrite (Z.min_r e) by lia.
    destruct (Z.le_gt_cases s (Z.of_nat (List.length b))) as [Hs' | Hs'].
    + rewrite Z.min_l by lia. rewrite !take_ge; [reflexivity | |];
        rewrite length_drop; lia.
    + rewrite Z.min_r by lia. rewrite Z.sub_diag, Nat2Z.id. simpl take.
      rewrite (drop_ge b (Z.to_nat s)) by lia. symmetry. apply take_nil.
Qed.

(** A reader whose bytes are not all inside the buffer throws. *)
Lemma read_be_out_of_range width (b : Buffer) off :
  Buf.length b < off + width -> Buf.read_be width b off = None.
Proof.
  intros Hlen. unfold Buf.read_be.
  destruct (Z.leb_spec (off + width) (Buf.length b)); [lia |].
  rewrite andb_false_r. reflexivity.
Qed.

(** The extras read by every decoder: the values of the three readers and
    the three reserved bytes. *)
Lemma common_extras_fields extras :
  5 <= Buf.length extras ->
  exists e,
    (forall c, common_extras extras c = (Normal e, c, []))
    /\ Buf.readUInt16BE extras 0 = Some (engine e)
    /\ Buf.readUInt16BE extras 2 = Some (flags e)
    /\ Buf.readUInt8 extras 4 = Some (ttl e)
    /\ reserved e = take 3 (drop 5 extras)
    /\ itemFlags e = None /\ itemExpiry e = None.
Proof.
  intros Hlen.
  destruct (read_be_in_range 2 extras 0) as [v0 H0]; [lia | lia |].
  destruct (read_be_in_range 2 extras 2) as [v2 H2]; [lia | lia |].
  destruct (read_be_in_range 1 extras 4) as [v4 H4]; [lia | lia |].
  exists {| engine := v0; flags := v2; ttl := v4;
            reserved := Buf.slice extras 5 8;
            itemFlags := None; itemExpiry := None |}.
  split; [| repeat split; try assumption].
  - intros c. unfold common_extras, Buf.readUInt16BE, Buf.readUInt8.
    rewrite (run_bind _ _ c v0 c []) by (apply run_checked, H0).
    rewrite (run_bind _ _ c v2 c []) by (apply run_checked, H2).
    rewrite (run_bind _ _ c v4 c []) by (apply run_checked, H4).
    reflexivity.
  - cbn [reserved]. rewrite slice_range by lia. reflexivity.
Qed.

(** With fewer than five bytes of extras one of the three readers throws. *)
Lemma common_extras_short extras c :
  Buf.length extras < 5 ->
  common_extras extras c = (Throw RangeError, c, []).
Proof.
  intros Hlen. unfold common_extras.
  destruct (Buf.readUInt16BE extras 0) as [v0 |] eqn:H0; [| reflexivity].
  rewrite (bind_quiet _ _ c (Normal v0)) by reflexivity.
  destruct (Buf.readUInt16BE extras 2) as [v2 |] eqn:H2; [| reflexivity].
  rewrite (bind_quiet _ _ c (Normal v2)) by reflexivity.
  unfold Buf.readUInt8. rewrite read_be_out_of_range by lia. reflexivity.
Qed.

(** The extras are read the same way on every client, and reading them
    touches neither the fields nor the outside. *)
Lemma common_extras_quiet extras :
  exists r, forall c, common_extras extras c = (r, c, []).
Proof.
  destruct (Z.le_gt_cases 5 (Buf.length extras)) as [Hlen | Hlen].
  - destruct (common_extras_fields extras Hlen) as (e & He & _).
    exists (Normal e). exact He.
  - exists (Throw RangeError). intros c. apply common_extras_short. lia.
Qed.
End decoders.

Section decoder_shapes.
Context `{Collaborators}.

(** [n & 2^k], made a boolean, is bit [k] of [n]. *)
Lemma truthy_bits_testbit w k :
  0 <= k -> truthy_bits (Z.land w (2 ^ k)) = Z.testbit w k.
Proof.
  intros Hk. unfold truthy_bits.
  assert (Z.land w (2 ^ k) = if Z.testbit w k then 2 ^ k else 0) as ->.
  { apply Z.bits_inj'. intros n Hn.
    rewrite Z.land_spec, Z.pow2_bits_eqb by exact Hk.
    destruct (Z.eqb_spec k n) as [-> | Hne].
    - destruct (Z.testbit w n); [rewrite Z.pow2_bits_true by exact Hn |
                                  rewrite Z.bits_0]; reflexivity.
    - rewrite andb_false_r.
      destruct (Z.testbit w k); [| rewrite Z.bits_0; reflexivity].
      rewrite Z.pow2_bits_false by (try lia; congruence). reflexivity. }
  destruct (Z.testbit w k); [| reflexivity].
  assert (0 < 2 ^ k) by (apply Z.pow_pos_nonneg; lia).
  destruct (Z.eqb_spec (2 ^ k) 0); [lia | reflexivity].
Qed.

(** Each decoder leaves the fields alone and either throws before
    emitting anything or emits one event of its own kind. *)
Lemma _handleMutation_shape header extras key body :
  exists r t,
    (forall c, _handleMutation header extras key body c = (r, c, t))
    /\ (t = [] \/ exists metas k v misc, t = [Emit (EvMutation metas k v misc)]).
Proof.
  destruct (common_extras_quiet extras) as [[e | err] He].
  - destruct (Buf.readUInt32BE extras 8) as [v8 |] eqn:H8.
    + destruct (Buf.readUInt32BE extras 12) as [v12 |] eqn:H12.
      * eexists _, _. split.
        { intros c. unfold _handleMutation.
          rewrite (bind_quiet _ _ c (Normal e)) by apply He.
          rewrite H8, H12.
          rewrite (bind_quiet _ _ c (Normal v8)) by reflexivity.
          rewrite (bind_quiet _ _ c (Normal v12)) by reflexivity.
          reflexivity. }
        right. eauto.
      * exists (Throw RangeError), []. split; [| left; reflexivity].
        intros c. unfold _handleMutation.
        rewrite (bind_quiet _ _ c (Normal e)) by apply He.
        rewrite H8, H12.
        rewrite (bind_quiet _ _ c (Normal v8)) by reflexivity.
        reflexivity.
    + exists (Throw RangeError), []. split; [| left; reflexivity].
      intros c. unfold _handleMutation.
      rewrite (bind_quiet _ _ c (Normal e)) by apply He.
      rewrite H8. reflexivity.
  - exists (Throw err), []. split; [| left; reflexivity].
    intros c. unfold _handleMutation.
    rewrite (bind_quiet _ _ c (Throw err)) by apply He. reflexivity.
Qed.

Lemma _handleDelete_shape header extras key body :
  exists r t,
    (forall c, _handleDelete header extras key body c = (r, c, t))
    /\ (t = [] \/ exists metas k misc, t = [Emit (EvDelete metas k misc)]).
Proof.
  destruct (common_extras_quiet extras) as [[e | err] He].
  - eexists _, _. split.
    { intros c. unfold _handleDelete.
      rewrite (bind_quiet _ _ c (Normal e)) by apply He. reflexivity. }
    right. eauto.
  - exists (Throw err), []. split; [| left; reflexivity].
    intros c. unfold _handleDelete.
    rewrite (bind_quiet _ _ c (Throw err)) by apply He. reflexivity.
Qed.

Lemma _handleFlush_shape header extras key body :
  exists r t,
    (forall c, _handleFlush header extras key body c = (r, c, t))
    /\ (t = [] \/ exists misc, t = [Emit (EvFlush misc)]).
Proof.
  destruct (common_extras_quiet extras) as [[e | err] He].
  - eexists _, _. split.
    { intros c. unfold _handleFlush.
      rewrite (bind_quiet _ _ c (Normal e)) by apply He. reflexivity. }
    right. eauto.
  - exists (Throw err), []. split; [| left; reflexivity].
    intros c. unfold _handleFlush.
    rewrite (bind_quiet _ _ c (Throw err)) by apply He. reflexivity.
Qed.

Lemma _handleOpaque_shape header extras key body :
  exists r t,
    (forall c, _handleOpaque header extras key body c = (r, c, t))
    /\ (t = [] \/ exists fl misc, t = [Emit (EvOpaque fl misc)]).
Proof.
  destruct (common_extras_quiet extras) as [[e | err] He].
  - destruct (Buf.readUInt32BE body 0) as [w |] eqn:Hw.
    + eexists _, _. split.
      { intros c. unfold _handleOpaque.
        rewrite (bind_quiet _ _ c (Normal e)) by apply He.
        rewrite Hw. rewrite (bind_quiet _ _ c (Normal w)) by reflexivity.
        reflexivity. }
      right. eauto.
    + exists (Throw RangeError), []. split; [| left; reflexivity].
      intros c. unfold _handleOpaque.
      rewrite (bind_quiet _ _ c (Normal e)) by apply He.
      rewrite Hw. reflexivity.
  - exists (Throw err), []. split; [| left; reflexivity].
    intros c. unfold _handleOpaque.
    rewrite (bind_quiet _ _ c (Throw err)) by apply He. reflexivity.
Qed.

Lemma handlers_0x43 : handlers !! 0x43 = Some _handleFlush.
Proof. reflexivity. Qed.

Lemma handlers_0x44 : handlers !! 0x44 = Some _handleOpaque.
Proof. reflexivity. Qed.

(** The table, opcode by opcode. *)
Lemma handlers_cases (op : Z) :
  (op = 0x20 /\ handlers !! op = Some _handleSASLMechs)
  \/ (op = 0x21 /\ handlers !! op = Some _handleSASLAuth)
  \/ (op = 0x41 /\ handlers !! op = Some _handleMutation)
  \/ (op = 0x42 /\ handlers !! op = Some _handleDelete)
  \/ (op = 0x43 /\ handlers !! op = Some _handleFlush)
  \/ (op = 0x44 /\ handlers !! op = Some _handleOpaque)
  \/ ((op ∉ [0x20; 0x21; 0x41; 0x42; 0x43; 0x44]) /\ handlers !! op = None).
Proof.
  destruct (decide (op = 0x20)) as [-> | H20]; [left; split; reflexivity |].
  destruct (decide (op = 0x21)) as [-> | H21];
    [right; left; split; reflexivity |].
  destruct (decide (op = 0x41)) as [-> | H41];
    [do 2 right; left; split; reflexivity |].
  destruct (decide (op = 0x42)) as [-> | H42];
    [do 3 right; left; split; reflexivity |].
  destruct (decide (op = 0x43)) as [-> | H43];
    [do 4 right; left; split; reflexivity |].
  destruct (decide (op = 0x44)) as [-> | H44];
    [do 5 right; left; split; reflexivity |].
  do 6 right.
  assert (op ∉ [0x20; 0x21; 0x41; 0x42; 0x43; 0x44]) as Hop.
  { intros Hin.
    repeat (apply elem_of_cons in Hin as [Heq | Hin]; [congruence |]).
    inversion Hin. }
  split; [exact Hop | apply handlers_unknown, Hop].
Qed.

(** What the handler of the mechanisms response does, whatever it is
    given. *)
Lemma _handleSASLMechs_run header extras key body c :
  exists hdr k b,
    _handleSASLMechs header extras key body c
    = (Normal tt, c, [ConnSend hdr [k; b]]).
Proof.
  unfold _handleSASLMechs, _handleSASLMechs_with, _requestSASLAuth.
  rewrite (bind_quiet _ _ c (Normal c)) by reflexivity.
  eexists _, _, _. reflexivity.
Qed.

(** The effects of [setMode]: nothing, or one request. *)
Lemma setMode_effects m c :
  effects_of (setMode m c) = []
  \/ exists hdr ex k b,
       effects_of (setMode m c) = [ConnSend hdr [ex; k; b]]
       /\ Header.opcode hdr = 0x40.
Proof.
  destruct (_connected c) eqn:Hc.
  - destruct (backfill_chunks_quiet m) as [r1 H1].
    destruct (vbuckets_chunks_quiet m) as [r2 H2].
    rewrite (setMode_shape m c _ _ Hc H1 H2).
    destruct r1 as [chunks1 |]; [| left; reflexivity].
    destruct r2 as [chunks2 |]; [| left; reflexivity].
    right. eexists _, _, _, _. split; reflexivity.
  - rewrite setMode_not_connected by exact Hc. left. reflexivity.
Qed.
End decoder_shapes.

(** X1: for a delete packet (opcode 0x42, at least the five leading bytes
    of extras) whose extras start with the 16-bit number [m], the session
    emits the raw notification and then one [delete] event whose meta is
    the first [m] bytes of the key region and whose key is the UTF-8
    string of the rest of the key region followed by the first [m] bytes
    of the body region; the extras of the event have no item flags and no
    item expiry, and nothing tells the rest of the body. *)
Theorem delete_decoding `{Collaborators} header extras key body c m :
  Header.opcode header = 0x42 ->
  5 <= Buf.length extras ->
  Buf.readUInt16BE extras 0 = Some m ->
  exists misc,
    _onData header extras key body c
    = (Normal tt, c,
       [Emit (EvData header extras key body);
        Emit (EvDelete
                (take (Z.to_nat m) key)
                (Buf.toString_utf8
                   (drop (Z.to_nat m) key ++ take (Z.to_nat m) body))
                misc)])
    /\ engine (misc_extras misc) = m
    /\ itemFlags (misc_extras misc) = None
    /\ itemExpiry (misc_extras misc) = None
    /\ misc_header misc = header.
Proof.
  intros Hop Hlen Hm.
  destruct (common_extras_fields extras Hlen)
    as (e & He & Heng & _ & _ & _ & Hif & Hie).
  assert (engine e = m) as Hmeta by congruence.
  assert (0 <= m) as Hpos by (eapply read_be_nonneg; exact Hm).
  exists {| misc_header := header; misc_extras := e |}.
  split; [| repeat split; assumption].
  rewrite _onData_run, Hop, handlers_0x42. unfold _handleDelete.
  rewrite (bind_quiet _ _ c (Normal e)) by apply He.
  cbn [misc_extras]. rewrite Hmeta.
  unfold emit, effect.
  rewrite slice_prefix, visible_key_bytes_eq by assumption.
  reflexivity.
Qed.

Lemma delete_decoding_scenario :
  exists misc,
    @_onData Sample.collaborators (Sample.inbound 0x42)
      [x00; x03; x00; x00; x00]%byte
      Sample.mutation_key Sample.mutation_body Sample.streaming
    = (Normal tt, Sample.streaming,
       [Emit (EvData (Sample.inbound 0x42) [x00; x03; x00; x00; x00]%byte
                Sample.mutation_key Sample.mutation_body);
        Emit (EvDelete [x01; x02; x03]%byte (js "foobar") misc)]).
Proof.
  destruct (@delete_decoding Sample.collaborators (Sample.inbound 0x42)
              [x00; x03; x00; x00; x00]%byte
              Sample.mutation_key Sample.mutation_body Sample.streaming 3)
    as (misc & Hrun & _).
  - reflexivity.
  - vm_compute. discriminate.
  - reflexivity.
  - exists misc. exact Hrun.
Defined.

(** X2: for a flush packet (opcode 0x43, at least five bytes of extras)
    the session emits the raw notification and one [flush] event that
    restates the header and carries the 16-bit numbers at offsets 0 and 2
    of the extras, the byte at offset 4 and the up to three bytes from
    offset 5; the event is the same whatever the key and the body of the
    packet are. *)
Theorem flush_decoding `{Collaborators} header extras c :
  Header.opcode header = 0x43 ->
  5 <= Buf.length extras ->
  exists misc,
    (forall key body,
       _onData header extras key body c
       = (Normal tt, c,
          [Emit (EvData header extras key body); Emit (EvFlush misc)]))
    /\ misc_header misc = header
    /\ Buf.readUInt16BE extras 0 = Some (engine (misc_extras misc))
    /\ Buf.readUInt16BE extras 2 = Some (flags (misc_extras misc))
    /\ Buf.readUInt8 extras 4 = Some (ttl (misc_extras misc))
    /\ reserved (misc_extras misc) = take 3 (drop 5 extras).
Proof.
  intros Hop Hlen.
  destruct (common_extras_fields extras Hlen)
    as (e & He & Heng & Hfl & Httl & Hres & _).
  exists {| misc_header := header; misc_extras := e |}.
  split; [| repeat split; assumption].
  intros key body.
  rewrite _onData_run, Hop, handlers_0x43. unfold _handleFlush.
  rewrite (bind_quiet _ _ c (Normal e)) by apply He.
  reflexivity.
Qed.

Lemma flush_decoding_scenario :
  exists misc,
    @_onData Sample.collaborators (Sample.inbound 0x43)
      [x00; x00; x01; x02; x07; xaa]%byte
      Sample.mutation_key Sample.mutation_body Sample.streaming
    = (Normal tt, Sample.streaming,
       [Emit (EvData (Sample.inbound 0x43) [x00; x00; x01; x02; x07; xaa]%byte
                Sample.mutation_key Sample.mutation_body);
        Emit (EvFlush misc)])
    /\ reserved (misc_extras misc) = [xaa]%byte.
Proof.
  destruct (@flush_decoding Sample.collaborators (Sample.inbound 0x43)
              [x00; x00; x01; x02; x07; xaa]%byte Sample.streaming)
    as (misc & Hrun & _ & _ & _ & _ & Hres).
  - reflexivity.
  - vm_compute. discriminate.
  - exists misc. split; [apply Hrun | exact Hres].
Defined.

(** X3: for an opaque packet (opcode 0x44, at least five bytes of extras)
    whose body starts with the 32-bit big-endian word [w], the session
    emits the raw notification and one [opaque] event whose eight flags
    are the bits 0 to 7 of [w], in the order enableAcks, startBackfill,
    enableCheckpoints, openChekpoint, startOnlineUpdate, stopOnlineUpdate,
    closeStream, closeBackfill. *)
Theorem opaque_decoding `{Collaborators} header extras key body c w :
  Header.opcode header = 0x44 ->
  5 <= Buf.length extras ->
  Buf.readUInt32BE body 0 = Some w ->
  exists fl misc,
    _onData header extras key body c
    = (Normal tt, c,
       [Emit (EvData header extras key body); Emit (EvOpaque fl misc)])
    /\ misc_header misc = header
    /\ opq_enableAcks fl = Z.testbit w 0
    /\ startBackfill fl = Z.testbit w 1
    /\ enableCheckpoints fl = Z.testbit w 2
    /\ openChekpoint fl = Z.testbit w 3
    /\ startOnlineUpdate fl = Z.testbit w 4
    /\ stopOnlineUpdate fl = Z.testbit w 5
    /\ closeStream fl = Z.testbit w 6
    /\ closeBackfill fl = Z.testbit w 7.
Proof.
  intros Hop Hlen Hw.
  destruct (common_extras_fields extras Hlen) as (e & He & _).
  eexists _, {| misc_header := header; misc_extras := e |}.
  split.
  - rewrite _onData_run, Hop, handlers_0x44. unfold _handleOpaque.
    rewrite (bind_quiet _ _ c (Normal e)) by apply He.
    rewrite Hw. rewrite (bind_quiet _ _ c (Normal w)) by reflexivity.
    reflexivity.
  - split; [reflexivity |].
    cbn [opq_enableAcks startBackfill enableCheckpoints openChekpoint
         startOnlineUpdate stopOnlineUpdate closeStream closeBackfill].
    repeat split.
    + apply (truthy_bits_testbit w 0). lia.
    + apply (truthy_bits_testbit w 1). lia.
    + apply (truthy_bits_testbit w 2). lia.
    + apply (truthy_bits_testbit w 3). lia.
    + apply (truthy_bits_testbit w 4). lia.
    + apply (truthy_bits_testbit w 5). lia.
    + apply (truthy_bits_testbit w 6). lia.
    + apply (truthy_bits_testbit w 7). lia.
Qed.

Lemma opaque_decoding_scenario :
  exists fl misc,
    @_onData Sample.collaborators (Sample.inbound 0x44)
      [x00; x00; x00; x00; x00]%byte [] [x00; x00; x00; x42]%byte
      Sample.streaming
    = (Normal tt, Sample.streaming,
       [Emit (EvData (Sample.inbound 0x44) [x00; x00; x00; x00; x00]%byte
                [] [x00; x00; x00; x42]%byte);
        Emit (EvOpaque fl misc)])
    /\ startBackfill fl = true
    /\ closeStream fl = true
    /\ opq_enableAcks fl = false.
Proof.
  destruct (@opaque_decoding Sample.collaborators (Sample.inbound 0x44)
              [x00; x00; x00; x00; x00]%byte [] [x00; x00; x00; x42]%byte
              Sample.streaming 0x42)
    as (fl & misc & Hrun & _ & H0 & H1 & _ & _ & _ & _ & H6 & _).
  - reflexivity.
  - vm_compute. discriminate.
  - reflexivity.
  - exists fl, misc.
    split; [exact Hrun | split; [exact H1 | split; [exact H6 | exact H0]]].
Defined.

(** X4: a packet for a decoder that is too short makes the session throw a
    RangeError after the raw notification: no decoded event is emitted and
    the fields are unchanged.  This happens for the four event opcodes
    when the extras have fewer than five bytes, for a mutation when they
    have fewer than sixteen, and for an opaque packet when the body has
    fewer than four. *)
Theorem short_packet_throws `{Collaborators} header extras key body c :
  (Header.opcode header ∈ [0x41; 0x42; 0x43; 0x44] /\ Buf.length extras < 5)
  \/ (Header.opcode header = 0x41 /\ Buf.length extras < 16)
  \/ (Header.opcode header = 0x44 /\ Buf.length body < 4) ->
  _onData header extras key body c
  = (Throw RangeError, c, [Emit (EvData header extras key body)]).
Proof.
  intros Hshort. rewrite _onData_run.
  assert (Buf.length extras < 5 ->
          forall (f : Extras -> M unit),
            (common_extras extras ≫= f) c = (Throw RangeError, c, []))
    as Hcommon.
  { intros Hlen f.
    rewrite (bind_quiet _ _ c (Throw RangeError))
      by (apply common_extras_short; exact Hlen).
    reflexivity. }
  destruct Hshort as [[Hop Hlen] | [[Hop Hlen] | [Hop Hlen]]].
  - repeat (apply elem_of_cons in Hop as [-> | Hop]);
      [rewrite handlers_0x41; unfold _handleMutation
      |rewrite handlers_0x42; unfold _handleDelete
      |rewrite handlers_0x43; unfold _handleFlush
      |rewrite handlers_0x44; unfold _handleOpaque
      |inversion Hop];
      rewrite (Hcommon Hlen); reflexivity.
  - rewrite Hop, handlers_0x41. unfold _handleMutation.
    destruct (Z.le_gt_cases 5 (Buf.length extras)) as [Hfive | Hfive];
      [| rewrite Hcommon by lia; reflexivity].
    destruct (common_extras_fields extras Hfive) as (e & He & _).
    rewrite (bind_quiet _ _ c (Normal e)) by apply He.
    assert (Buf.readUInt32BE extras 12 = None) as H12
      by (apply read_be_out_of_range; lia).
    rewrite H12.
    destruct (Buf.readUInt32BE extras 8) as [v8 |]; [| reflexivity].
    rewrite (bind_quiet _ _ c (Normal v8)) by reflexivity.
    reflexivity.
  - rewrite Hop, handlers_0x44. unfold _handleOpaque.
    destruct (Z.le_gt_cases 5 (Buf.length extras)) as [Hfive | Hfive];
      [| rewrite Hcommon by lia; reflexivity].
    destruct (common_extras_fields extras Hfive) as (e & He & _).
    rewrite (bind_quiet _ _ c (Normal e)) by apply He.
    assert (Buf.readUInt32BE body 0 = None) as Hw
      by (apply read_be_out_of_range; lia).
    rewrite Hw. reflexivity.
Qed.

Lemma short_packet_throws_scenario :
  @_onData Sample.collaborators (Sample.inbound 0x41) [x00; x03]%byte
    Sample.mutation_key Sample.mutation_body Sample.streaming
  = (Throw RangeError, Sample.streaming,
     [Emit (EvData (Sample.inbound 0x41) [x00; x03]%byte
              Sample.mutation_key Sample.mutation_body)]).
Proof.
  apply (@short_packet_throws Sample.collaborators).
  right. left. split; [reflexivity | vm_compute; reflexivity].
Defined.

(** X5: a meta length beyond the packet does not make the mutation decoder
    throw, the slices are clamped: when it is at least the length of the
    key region and of the body region, the meta is the whole key region,
    the key is the UTF-8 string of the whole body region and the value is
    the empty string. *)
Theorem mutation_meta_length_clamped `{Collaborators} header extras key body c m :
  Header.opcode header = 0x41 ->
  16 <= Buf.length extras ->
  Buf.readUInt16BE extras 0 = Some m ->
  Buf.length key <= m ->
  Buf.length body <= m ->
  exists misc,
    _onData header extras key body c
    = (Normal tt, c,
       [Emit (EvData header extras key body);
        Emit (EvMutation key (Buf.toString_utf8 body) [] misc)]).
Proof.
  intros Hop Hlen Hm Hkey Hbody.
  destruct (_handleMutation_run header extras key body c Hlen)
    as (misc & Hrun & Heng & _).
  assert (engine (misc_extras misc) = m) as Hmeta by congruence.
  assert (0 <= m) as Hpos by (eapply read_be_nonneg; exact Hm).
  exists misc.
  rewrite _onData_run, Hop, handlers_0x41, Hrun, Hmeta.
  rewrite slice_prefix, visible_key_bytes_eq, slice_from_suffix by assumption.
  unfold Buf.length in *.
  rewrite !take_ge, !drop_ge by lia.
  reflexivity.
Qed.

Lemma mutation_meta_length_clamped_scenario :
  exists misc,
    @_onData Sample.collaborators (Sample.inbound 0x41)
      ([x00; x09] ++ repeat x00 14)%byte
      Sample.mutation_key Sample.mutation_body Sample.streaming
    = (Normal tt, Sample.streaming,
       [Emit (EvData (Sample.inbound 0x41) ([x00; x09] ++ repeat x00 14)%byte
                Sample.mutation_key Sample.mutation_body);
        Emit (EvMutation Sample.mutation_key (js "barbaz") [] misc)]).
Proof.
  apply (@mutation_meta_length_clamped Sample.collaborators
           (Sample.inbound 0x41) ([x00; x09] ++ repeat x00 14)%byte
           Sample.mutation_key Sample.mutation_body Sample.streaming 9).
  - reflexivity.
  - vm_compute. discriminate.
  - reflexivity.
  - vm_compute. discriminate.
  - vm_compute. discriminate.
Defined.

(** X6: the decoders lose no byte of the packet when the meta length [m]
    is at most the length of the key region and of the body region: the
    meta followed by the leading bytes of the reconstructed key is the key
    region, and the last [m] bytes of the reconstructed key followed by
    the bytes of the value are the body region. *)
Theorem reassembly_keeps_all_bytes (key body : Buffer) m :
  0 <= m ->
  m <= Buf.length key ->
  m <= Buf.length body ->
  Buf.slice key 0 m
    ++ take (Z.to_nat (Buf.length key - m)) (visible_key_bytes m key body)
  = key
  /\ drop (Z.to_nat (Buf.length key - m)) (visible_key_bytes m key body)
       ++ Buf.slice_from body m
     = body.
Proof.
  intros Hm Hkey Hbody.
  rewrite slice_prefix, visible_key_bytes_eq, slice_from_suffix by assumption.
  unfold Buf.length in *.
  assert (Z.to_nat (Z.of_nat (List.length key) - m)
          = List.length (drop (Z.to_nat m) key)) as Hlen
    by (rewrite length_drop; lia).
  split.
  - rewrite take_app_length' by exact Hlen. apply take_drop.
  - rewrite drop_app_length' by exact Hlen. apply take_drop.
Qed.

Lemma reassembly_keeps_all_bytes_scenario :
  [x01; x02; x03]%byte
    ++ take 3 (visible_key_bytes 3 Sample.mutation_key Sample.mutation_body)
  = Sample.mutation_key
  /\ drop 3 (visible_key_bytes 3 Sample.mutation_key Sample.mutation_body)
       ++ ["b"; "a"; "z"]%byte
     = Sample.mutation_body.
Proof.
  apply (reassembly_keeps_all_bytes Sample.mutation_key Sample.mutation_body 3).
  - lia.
  - vm_compute. discriminate.
  - vm_compute. discriminate.
Defined.

(** ** What a packet can and cannot do *)

Section packets.
Context `{Collaborators}.

(** A packet for one of the four decoders: the fields stay, and after the
    raw notification comes nothing or one event of the opcode's kind. *)
Lemma decoder_packet header extras key body c :
  Header.opcode header ∈ [0x41; 0x42; 0x43; 0x44] ->
  exists r t,
    _onData header extras key body c
    = (r, c, Emit (EvData header extras key body) :: t)
    /\ (t = [] \/ exists ev, t = [Emit ev]
                             /\ decoded_opcode (Emit ev)
                                = Some (Header.opcode header)).
Proof.
  intros Hop. rewrite _onData_run.
  repeat (apply elem_of_cons in Hop as [Hop | Hop]); [| | | | inversion Hop];
    rewrite Hop.
  - rewrite handlers_0x41.
    destruct (_handleMutation_shape header extras key body)
      as (r & t & Hrun & Ht).
    rewrite Hrun. exists r, t. split; [reflexivity |].
    destruct Ht as [-> | (metas & k & v & misc & ->)]; [left | right]; eauto.
  - rewrite handlers_0x42.
    destruct (_handleDelete_shape header extras key body)
      as (r & t & Hrun & Ht).
    rewrite Hrun. exists r, t. split; [reflexivity |].
    destruct Ht as [-> | (metas & k & misc & ->)]; [left | right]; eauto.
  - rewrite handlers_0x43.
    destruct (_handleFlush_shape header extras key body)
      as (r & t & Hrun & Ht).
    rewrite Hrun. exists r, t. split; [reflexivity |].
    destruct Ht as [-> | (misc & ->)]; [left | right]; eauto.
  - rewrite handlers_0x44.
    destruct (_handleOpaque_shape header extras key body)
      as (r & t & Hrun & Ht).
    rewrite Hrun. exists r, t. split; [reflexivity |].
    destruct Ht as [-> | (fl & misc & ->)]; [left | right]; eauto.
Qed.

(** A mechanisms response: the fields stay, one request is sent. *)
Lemma mechs_packet header extras key body c :
  Header.opcode header = 0x20 ->
  exists hdr k b,
    _onData header extras key body c
    = (Normal tt, c,
       [Emit (EvData header extras key body); ConnSend hdr [k; b]]).
Proof.
  intros Hop. rewrite _onData_run, Hop, handlers_0x20.
  destruct (_handleSASLMechs_run header extras key body c)
    as (hdr & k & b & Hrun).
  rewrite Hrun. eauto.
Qed.

(** The successful branch of the authentication handler. *)
Lemma _handleSASLAuth_success header extras key body c :
  Buf.toString_utf8 body = [] ->
  _handleSASLAuth header extras key body c
  = (match Opts.mode (opts c) with
     | Some m => setMode m
     | None => mret tt
     end ≫= fun _ => emit EvConnect) (set_connected true c).
Proof.
  intros Hbody. unfold _handleSASLAuth. rewrite Hbody.
  rewrite (run_bind _ _ c tt (set_connected true c) []) by reflexivity.
  rewrite (bind_quiet _ _ (set_connected true c)
             (Normal (set_connected true c))) by reflexivity.
  cbn [opts set_connected].
  destruct (_ ≫= _) as [[r c2] t2]. reflexivity.
Qed.

(** How [setMode] can end: ignored, honoured with one request, or
    thrown out of with nothing sent. *)
Lemma setMode_outcomes m c :
  setMode m c = (Normal tt, c, [])
  \/ (exists hdr ex k b,
        setMode m c = (Normal tt, set_mode m c, [ConnSend hdr [ex; k; b]])
        /\ Header.opcode hdr = 0x40)
  \/ (exists e, setMode m c = (Throw e, set_mode m c, [])).
Proof.
  destruct (_connected c) eqn:Hc.
  - destruct (backfill_chunks_quiet m) as [r1 H1].
    destruct (vbuckets_chunks_quiet m) as [r2 H2].
    rewrite (setMode_shape m c _ _ Hc H1 H2).
    destruct r1 as [chunks1 | e]; [| right; right; eauto].
    destruct r2 as [chunks2 | e]; [| right; right; eauto].
    right. left. eexists _, _, _, _. split; reflexivity.
  - left. apply setMode_not_connected, Hc.
Qed.

(** The effects of the authentication handler: the mode request, if any,
    and [connect]; or [error] and the closing of the transport. *)
Lemma _handleSASLAuth_effects header extras key body c :
  let t := effects_of (_handleSASLAuth header extras key body c) in
  t = [] \/ t = [Emit EvConnect]
  \/ (exists hdr chunks, t = [ConnSend hdr chunks; Emit EvConnect])
  \/ t = [Emit (EvError (Error (Buf.toString_utf8 body))); ConnClose].
Proof.
  cbv zeta.
  destruct (Buf.toString_utf8 body) as [| u rest] eqn:Hbody.
  - rewrite _handleSASLAuth_success by exact Hbody.
    destruct (Opts.mode (opts c)) as [m |];
      [| right; left; reflexivity].
    unfold mbind, M_bind.
    destruct (setMode_outcomes m (set_connected true c))
      as [Hrun | [(hdr & ex & k & b & Hrun & _) | (e & Hrun)]];
      rewrite Hrun.
    + right. left. reflexivity.
    + right. right. left. eexists _, _. reflexivity.
    + left. reflexivity.
  - unfold _handleSASLAuth. rewrite Hbody.
    unfold mbind, M_bind. rewrite _onError_run.
    destruct (listens_error c); [right; right; right | left]; reflexivity.
Qed.
End packets.

(** A packet that is no authenticate response runs on the fields without
    changing them, however it completes. *)
Lemma _onData_keeps_fields `{Collaborators} header extras key body c :
  Header.opcode header <> 0x21 ->
  exists r t, _onData header extras key body c = (r, c, t).
Proof.
  intros Hop.
  destruct (handlers_cases (Header.opcode header))
    as [[H20 _] | [[H21 _] | [[Hd _] | [[Hd _] | [[Hd _] | [[Hd _] | [Hnone _]]]]]]];
    [ | contradiction | | | | | ].
  - destruct (mechs_packet header extras key body c H20)
      as (hdr & k & b & Hrun).
    eauto.
  - destruct (decoder_packet header extras key body c) as (r & t & Hrun & _);
      [rewrite Hd; set_solver | eauto].
  - destruct (decoder_packet header extras key body c) as (r & t & Hrun & _);
      [rewrite Hd; set_solver | eauto].
  - destruct (decoder_packet header extras key body c) as (r & t & Hrun & _);
      [rewrite Hd; set_solver | eauto].
  - destruct (decoder_packet header extras key body c) as (r & t & Hrun & _);
      [rewrite Hd; set_solver | eauto].
  - rewrite _onData_run, (handlers_unknown _ Hnone). eauto.
Qed.

(** X7: only an authenticate response (opcode 0x21) changes the fields of
    the session: for every other packet, handled or not, well formed or
    not, the fields after [_onData] are the fields before. *)
Theorem only_auth_changes_fields `{Collaborators} header extras key body c :
  Header.opcode header <> 0x21 ->
  fields_after (_onData header extras key body c) = c.
Proof.
  intros Hop.
  destruct (_onData_keeps_fields header extras key body c Hop)
    as (r & t & Hrun).
  rewrite Hrun. reflexivity.
Qed.

Lemma only_auth_changes_fields_scenario :
  fields_after
    (@_onData Sample.collaborators (Sample.inbound 0x41) [x00; x03]%byte
       Sample.mutation_key Sample.mutation_body Sample.streaming)
  = Sample.streaming
  /\ fields_after
       (@_onData Sample.collaborators (Sample.inbound 0x20) [] [] []
          Sample.streaming)
     = Sample.streaming.
Proof.
  split; apply (@only_auth_changes_fields Sample.collaborators); discriminate.
Defined.

(** X8: a decoded event is only ever emitted for the packet of its own
    opcode: every effect of [_onData] is either no decoded event, or the
    [mutation], [delete], [flush] or [opaque] event that belongs to the
    opcode of the packet (0x41, 0x42, 0x43, 0x44). *)
Theorem decoded_event_matches_opcode `{Collaborators} header extras key body c :
  Forall (fun e => decoded_opcode e = None
                   \/ decoded_opcode e = Some (Header.opcode header))
    (effects_of (_onData header extras key body c)).
Proof.
  assert (forall r c' t,
            _onData header extras key body c
            = (r, c', Emit (EvData header extras key body) :: t) ->
            (t = [] \/ exists ev, t = [Emit ev]
                                  /\ decoded_opcode (Emit ev)
                                     = Some (Header.opcode header)) ->
            Forall (fun e => decoded_opcode e = None
                             \/ decoded_opcode e = Some (Header.opcode header))
              (effects_of (_onData header extras key body c))) as Hdec.
  { intros r c' t Hrun Ht. rewrite Hrun. unfold effects_of. cbn [snd].
    constructor; [left; reflexivity |].
    destruct Ht as [-> | (ev & -> & Hev)]; [constructor |].
    constructor; [right; exact Hev | constructor]. }
  destruct (handlers_cases (Header.opcode header))
    as [[H20 _] | [[H21 _] | [[Hd _] | [[Hd _] | [[Hd _] | [[Hd _] | [Hnone _]]]]]]].
  - destruct (mechs_packet header extras key body c H20)
      as (hdr & k & b & Hrun).
    rewrite Hrun. repeat constructor.
  - rewrite _onData_run, H21, handlers_0x21.
    pose proof (_handleSASLAuth_effects header extras key body c) as Ht.
    cbv zeta in Ht.
    destruct (_handleSASLAuth header extras key body c) as [[r c'] t].
    unfold effects_of in *. cbn [snd] in *.
    destruct Ht as [-> | [-> | [(hdr & chunks & ->) | ->]]];
      repeat constructor.
  - destruct (decoder_packet header extras key body c) as (r & t & Hrun & Ht);
      [rewrite Hd; set_solver | eapply Hdec; eassumption].
  - destruct (decoder_packet header extras key body c) as (r & t & Hrun & Ht);
      [rewrite Hd; set_solver | eapply Hdec; eassumption].
  - destruct (decoder_packet header extras key body c) as (r & t & Hrun & Ht);
      [rewrite Hd; set_solver | eapply Hdec; eassumption].
  - destruct (decoder_packet header extras key body c) as (r & t & Hrun & Ht);
      [rewrite Hd; set_solver | eapply Hdec; eassumption].
  - rewrite _onData_run, (handlers_unknown _ Hnone). repeat constructor.
Qed.

(** X9: the session calls its connection only when it handles a handshake
    packet: for a packet whose opcode is neither 0x20 nor 0x21, every
    effect of [_onData] is an event for the subscribers; nothing is sent
    and the transport is not closed. *)
Theorem events_never_answered `{Collaborators} header extras key body c :
  Header.opcode header ∉ [0x20; 0x21] ->
  Forall (fun e => is_conn_call e = false)
    (effects_of (_onData header extras key body c)).
Proof.
  intros Hop.
  assert (forall r c' t,
            _onData header extras key body c
            = (r, c', Emit (EvData header extras key body) :: t) ->
            (t = [] \/ exists ev, t = [Emit ev]
                                  /\ decoded_opcode (Emit ev)
                                     = Some (Header.opcode header)) ->
            Forall (fun e => is_conn_call e = false)
              (effects_of (_onData header extras key body c))) as Hdec.
  { intros r c' t Hrun Ht. rewrite Hrun. unfold effects_of. cbn [snd].
    destruct Ht as [-> | (ev & -> & _)]; repeat constructor. }
  destruct (handlers_cases (Header.opcode header))
    as [[H20 _] | [[H21 _] | [[Hd _] | [[Hd _] | [[Hd _] | [[Hd _] | [Hnone _]]]]]]].
  - exfalso. apply Hop. rewrite H20. set_solver.
  - exfalso. apply Hop. rewrite H21. set_solver.
  - destruct (decoder_packet header extras key body c) as (r & t & Hrun & Ht);
      [rewrite Hd; set_solver | eapply Hdec; eassumption].
  - destruct (decoder_packet header extras key body c) as (r & t & Hrun & Ht);
      [rewrite Hd; set_solver | eapply Hdec; eassumption].
  - destruct (decoder_packet header extras key body c) as (r & t & Hrun & Ht);
      [rewrite Hd; set_solver | eapply Hdec; eassumption].
  - destruct (decoder_packet header extras key body c) as (r & t & Hrun & Ht);
      [rewrite Hd; set_solver | eapply Hdec; eassumption].
  - rewrite _onData_run, (handlers_unknown _ Hnone). repeat constructor.
Qed.

Lemma events_never_answered_scenario :
  Forall (fun e => is_conn_call e = false)
    (effects_of
       (@_onData Sample.collaborators (Sample.inbound 0x41)
          Sample.mutation_extras Sample.mutation_key Sample.mutation_body
          Sample.streaming)).
Proof.
  apply (@events_never_answered Sample.collaborators).
  intros Hin.
  repeat (apply elem_of_cons in Hin as [Heq | Hin]; [discriminate Heq |]).
  inversion Hin.
Defined.

(** ** More on the streaming-mode request *)

Lemma testbit_flag (b : bool) k i :
  0 <= k ->
  Z.testbit (if b then 2 ^ k else 0) i = b && (k =? i).
Proof.
  intros Hk. destruct b; [| apply Z.bits_0].
  rewrite Z.pow2_bits_eqb by exact Hk. reflexivity.
Qed.

(** X10: the flag word of a mode request has bit 0 set exactly when
    [mode.backfill] is a number other than 0, bit 1 for [dump], bit 2 when
    a vbucket list is given, bit 3 for [takover], bit 4 for [enableAcks],
    bit 5 for [keysOnly] and bit 7 for [registred]; bit 6 and the bits
    from 8 on are never set. *)
Theorem mode_flags_layout (m : Mode.t) i :
  Z.testbit (mode_flags m) i
  = if i =? 0 then truthy_number (Mode.backfill m)
    else if i =? 1 then Mode.dump m
    else if i =? 2 then truthy_object (Mode.vbuckets m)
    else if i =? 3 then Mode.takover m
    else if i =? 4 then Mode.enableAcks m
    else if i =? 5 then Mode.keysOnly m
    else if i =? 7 then Mode.registred m
    else false.
Proof.
  assert (mode_flags m
          = Z.lor (if truthy_number (Mode.backfill m) then 2 ^ 0 else 0)
           (Z.lor (if Mode.dump m then 2 ^ 1 else 0)
           (Z.lor (if truthy_object (Mode.vbuckets m) then 2 ^ 2 else 0)
           (Z.lor (if Mode.takover m then 2 ^ 3 else 0)
           (Z.lor (if Mode.enableAcks m then 2 ^ 4 else 0)
           (Z.lor (if Mode.keysOnly m then 2 ^ 5 else 0)
                  (if Mode.registred m then 2 ^ 7 else 0))))))) as ->
    by reflexivity.
  rewrite !Z.lor_spec, !testbit_flag by lia.
  rewrite !(Z.eqb_sym i).
  repeat match goal with
         | |- context [Z.eqb ?a i] => destruct (Z.eqb_spec a i) as [<- | ?]
         end;
    cbn [Z.eqb Pos.eqb];
    destruct (truthy_number _), (Mode.dump m), (truthy_object _),
      (Mode.takover m), (Mode.enableAcks m), (Mode.keysOnly m),
      (Mode.registred m);
    reflexivity.
Qed.

(** ** Big-endian bytes *)

Lemma byte_to_Z_range (b : byte) : 0 <= byte_to_Z b < 256.
Proof.
  unfold byte_to_Z. pose proof (Byte.to_N_bounded b). lia.
Qed.

Lemma byte_to_of_Z z : byte_to_Z (byte_of_Z z) = z mod 256.
Proof.
  unfold byte_to_Z, byte_of_Z.
  pose proof (Z.mod_pos_bound z 256 ltac:(lia)) as Hz.
  pose proof (Byte.to_of_N_option_map (Z.to_N (z mod 256))) as Hmap.
  destruct (Byte.of_N (Z.to_N (z mod 256))) as [b |] eqn:Hb.
  - apply Byte.to_of_N in Hb. rewrite Hb. lia.
  - simpl in Hmap.
    destruct (N.leb_spec (Z.to_N (z mod 256)) 255); [discriminate | lia].
Qed.

Lemma length_be_bytes w v : List.length (factory.be_bytes w v) = w.
Proof. induction w; simpl; congruence. Qed.

Lemma be_value_fold (bs : list byte) acc :
  fold_left (fun a x => a * 256 + byte_to_Z x) bs acc
  = acc * 256 ^ Z.of_nat (List.length bs) + Buf.be_value bs.
Proof.
  unfold Buf.be_value. revert acc.
  induction bs as [| b bs IH]; intros acc.
  - simpl. lia.
  - cbn [fold_left List.length]. rewrite (IH (acc * 256 + byte_to_Z b)).
    rewrite (IH (0 * 256 + byte_to_Z b)).
    rewrite Nat2Z.inj_succ, Z.pow_succ_r by lia. ring.
Qed.

Lemma be_value_cons b (bs : list byte) :
  Buf.be_value (b :: bs)
  = byte_to_Z b * 256 ^ Z.of_nat (List.length bs) + Buf.be_value bs.
Proof.
  unfold Buf.be_value at 1. cbn [fold_left]. rewrite be_value_fold. ring.
Qed.

Lemma be_value_app (xs ys : list byte) :
  Buf.be_value (xs ++ ys)
  = Buf.be_value xs * 256 ^ Z.of_nat (List.length ys) + Buf.be_value ys.
Proof.
  unfold Buf.be_value at 1. rewrite fold_left_app, be_value_fold.
  reflexivity.
Qed.

Lemma be_value_range (bs : list byte) :
  0 <= Buf.be_value bs < 256 ^ Z.of_nat (List.length bs).
Proof.
  induction bs as [| b bs IH].
  - cbn. lia.
  - rewrite be_value_cons. cbn [List.length].
    rewrite Nat2Z.inj_succ, Z.pow_succ_r by lia.
    pose proof (byte_to_Z_range b). nia.
Qed.

(** Reading back the [w] bytes written for [v] gives [v] modulo
    [256 ^ w]. *)
Lemma be_value_be_bytes w v :
  Buf.be_value (factory.be_bytes w v) = v mod 256 ^ Z.of_nat w.
Proof.
  induction w as [| w IH].
  - cbn. rewrite Z.mod_1_r. reflexivity.
  - cbn [factory.be_bytes]. rewrite be_value_cons, length_be_bytes, IH.
    rewrite byte_to_of_Z, Z.shiftr_div_pow2 by lia.
    rewrite Nat2Z.inj_succ, Z.pow_succ_r by lia.
    replace (2 ^ (8 * Z.of_nat w)) with (256 ^ Z.of_nat w)
      by (change 256 with (2 ^ 8); rewrite <- Z.pow_mul_r by lia; reflexivity).
    assert (0 < 256 ^ Z.of_nat w) as Hpos by (apply Z.pow_pos_nonneg; lia).
    rewrite (Z.mul_comm 256).
    rewrite (Z.rem_mul_r v (256 ^ Z.of_nat w) 256) by lia.
    ring.
Qed.

(** ** [node-int64]: the bytes of a number *)

Lemma lxor_ff (b : byte) : Z.lxor (byte_to_Z b) 0xff = 255 - byte_to_Z b.
Proof. destruct b; reflexivity. Qed.

Lemma _2scomp_fold (bs : list byte) :
  let '(out, carry) := fold_right Int64._2scomp_step ([], 1) bs in
  List.length out = List.length bs
  /\ 0 <= carry <= 1
  /\ Buf.be_value out + carry * 256 ^ Z.of_nat (List.length bs)
     = 256 ^ Z.of_nat (List.length bs) - Buf.be_value bs.
Proof.
  induction bs as [| b bs IH].
  - cbn. repeat split; lia.
  - cbn [fold_right].
    destruct (fold_right Int64._2scomp_step ([], 1) bs) as [out carry].
    destruct IH as (Hlen & Hcarry & Hval).
    unfold Int64._2scomp_step.
    rewrite lxor_ff. pose proof (byte_to_Z_range b) as Hb.
    set (v := 255 - byte_to_Z b + carry).
    assert (0 <= v <= 256) as Hv by (unfold v; lia).
    split; [cbn [List.length]; congruence |].
    rewrite Z.shiftr_div_pow2 by lia. change (2 ^ 8) with 256.
    split; [split; [apply Z.div_pos; lia |
                    apply Z.div_le_upper_bound; lia] |].
    rewrite !be_value_cons, byte_to_of_Z, Hlen.
    change 0xff with (Z.ones 8). rewrite Z.land_ones by lia.
    change (2 ^ 8) with 256. rewrite Z.mod_mod by lia.
    cbn [List.length]. rewrite Nat2Z.inj_succ, Z.pow_succ_r by lia.
    pose proof (Z.div_mod v 256 ltac:(lia)) as Hdm.
    assert (v * 256 ^ Z.of_nat (List.length bs)
            = (v mod 256) * 256 ^ Z.of_nat (List.length bs)
              + v / 256 * (256 * 256 ^ Z.of_nat (List.length bs))) as Hsplit.
    { rewrite Hdm at 1. ring. }
    unfold v in Hsplit at 1. lia.
Qed.

Lemma _2scomp_length (bs : list byte) :
  List.length (Int64._2scomp bs) = List.length bs.
Proof.
  unfold Int64._2scomp. pose proof (_2scomp_fold bs) as Hfold.
  destruct (fold_right _ _ bs) as [out carry]. apply Hfold.
Qed.

(** [_2scomp] negates the number that the bytes hold, modulo the size. *)
Lemma _2scomp_value (bs : list byte) :
  Buf.be_value (Int64._2scomp bs)
  = (- Buf.be_value bs) mod 256 ^ Z.of_nat (List.length bs).
Proof.
  unfold Int64._2scomp. pose proof (_2scomp_fold bs) as Hfold.
  destruct (fold_right _ _ bs) as [out carry].
  destruct Hfold as (Hlen & Hcarry & Hval). cbn [fst].
  pose proof (be_value_range out) as Hout. rewrite Hlen in Hout.
  pose proof (be_value_range bs) as Hbs.
  set (M := 256 ^ Z.of_nat (List.length bs)) in *.
  apply (Z.mod_unique_pos _ _ (carry - 1)); [exact Hout | lia].
Qed.

(** The buffer of a number of magnitude at most [2 ^ 64]: eight bytes
    that hold the number modulo [2 ^ 64]. *)
Lemma Int64_buffer_spec n :
  Z.abs n <= 2 ^ 64 ->
  exists b, Int64.buffer n = Some b
            /\ List.length b = 8%nat
            /\ Buf.be_value b = n mod 2 ^ 64.
Proof.
  intros Hn. unfold Int64.buffer.
  change (Int64.VAL32 * Int64.VAL32) with (2 ^ 64).
  destruct (Z.ltb_spec (2 ^ 64) (Z.abs n)) as [Hbig | _]; [lia |].
  set (a := Z.abs n).
  set (bs := factory.be_bytes 4 ((a / Int64.VAL32) mod Int64.VAL32)
             ++ factory.be_bytes 4 (a mod Int64.VAL32)).
  assert (List.length bs = 8%nat) as Hlen
    by (unfold bs; rewrite length_app, !length_be_bytes; reflexivity).
  assert (Buf.be_value bs = a mod 2 ^ 64) as Hval.
  { unfold bs. rewrite be_value_app, !be_value_be_bytes, length_be_bytes.
    change (256 ^ Z.of_nat 4) with (2 ^ 32).
    change Int64.VAL32 with (2 ^ 32).
    rewrite !Z.mod_mod by lia.
    change (2 ^ 64) with (2 ^ 32 * 2 ^ 32).
    rewrite (Z.rem_mul_r a (2 ^ 32) (2 ^ 32)) by lia. ring. }
  eexists. split; [reflexivity |].
  destruct (Z.ltb_spec n 0) as [Hneg | Hpos].
  - split; [rewrite _2scomp_length; exact Hlen |].
    rewrite _2scomp_value, Hval, Hlen.
    change (256 ^ Z.of_nat 8) with (2 ^ 64).
    replace (n mod 2 ^ 64) with ((0 - a) mod 2 ^ 64)
      by (f_equal; unfold a; lia).
    replace (- (a mod 2 ^ 64)) with (0 - a mod 2 ^ 64) by lia.
    apply Zdiv.Zminus_mod_idemp_r.
  - split; [exact Hlen |]. rewrite Hval. unfold a.
    rewrite Z.abs_eq by lia. reflexivity.
Qed.

(** X11: when [mode.backfill] is a number [n] other than 0, [setMode]
    puts one chunk of eight bytes in front of the body; for a magnitude of
    at most [2 ^ 64] these bytes hold [n] modulo [2 ^ 64] big-endian (the
    two's complement of [n] when it fits 64 bits), and for a larger one
    the construction of the chunk throws a RangeError. *)
Theorem backfill_position_bytes (m : Mode.t) n c :
  Mode.backfill m = Some n ->
  n <> 0 ->
  (Z.abs n <= 2 ^ 64 ->
   exists b, backfill_chunks m c = (Normal [b], c, [])
             /\ Buf.length b = 8
             /\ Buf.be_value b = n mod 2 ^ 64)
  /\ (2 ^ 64 < Z.abs n -> backfill_chunks m c = (Throw RangeError, c, [])).
Proof.
  intros Hb Hn.
  assert (truthy_number (Mode.backfill m) = true) as Htruthy.
  { rewrite Hb. cbn. destruct (Z.eqb_spec n 0); [contradiction | reflexivity]. }
  unfold backfill_chunks. rewrite Htruthy, Hb.
  change (default 0 (Some n)) with n.
  split.
  - intros Hrange.
    destruct (Int64_buffer_spec n Hrange) as (b & Hbuf & Hlen & Hval).
    exists b. rewrite Hbuf. unfold Buf.length. rewrite Hlen.
    split; [reflexivity | split; [reflexivity | exact Hval]].
  - intros Hbig. unfold Int64.buffer.
    change (Int64.VAL32 * Int64.VAL32) with (2 ^ 64).
    destruct (Z.ltb_spec (2 ^ 64) (Z.abs n)); [reflexivity | lia].
Qed.

Lemma backfill_position_bytes_scenario :
  let m := {| Mode.backfill := Some (-1000); Mode.dump := false;
              Mode.vbuckets := None; Mode.takover := false;
              Mode.enableAcks := false; Mode.keysOnly := false;
              Mode.registred := false |} in
  let big := {| Mode.backfill := Some (2 ^ 70); Mode.dump := false;
                Mode.vbuckets := None; Mode.takover := false;
                Mode.enableAcks := false; Mode.keysOnly := false;
                Mode.registred := false |} in
  (exists b, backfill_chunks m Sample.ready = (Normal [b], Sample.ready, [])
             /\ Buf.length b = 8
             /\ Buf.be_value b = 2 ^ 64 - 1000)
  /\ backfill_chunks big Sample.ready = (Throw RangeError, Sample.ready, []).
Proof.
  intros m big. split.
  - apply (proj1 (backfill_position_bytes m (-1000) Sample.ready
                    eq_refl ltac:(discriminate))).
    vm_compute. discriminate.
  - apply (proj2 (backfill_position_bytes big (2 ^ 70) Sample.ready
                    eq_refl ltac:(discriminate))).
    vm_compute. reflexivity.
Defined.

Section request_layout.
Context `{Collaborators}.

Lemma Int64_buffer_length n b :
  Int64.buffer n = Some b -> List.length b = 8%nat.
Proof.
  unfold Int64.buffer. cbv zeta.
  destruct (Int64.VAL32 * Int64.VAL32 <? Z.abs n); [discriminate |].
  intros [= <-].
  destruct (n <? 0); [rewrite _2scomp_length |]; reflexivity.
Qed.

Lemma createUInt16BE_length n b :
  factory.createUInt16BE n = Some b -> List.length b = 2%nat.
Proof.
  unfold factory.createUInt16BE. destruct (_ && _); [| discriminate].
  intros [= <-]. reflexivity.
Qed.

Lemma mode_flags_range m : 0 <= mode_flags m < 2 ^ 32.
Proof.
  pose proof (createUInt32BE_flags m) as Henc.
  unfold factory.createUInt32BE in Henc.
  destruct (Z.leb_spec 0 (mode_flags m)); [| discriminate].
  destruct (Z.ltb_spec (mode_flags m) (2 ^ 32)); [lia | discriminate].
Qed.

Lemma backfill_chunks_length m c chunks :
  backfill_chunks m c = (Normal chunks, c, []) ->
  Buf.length (Buf.concat chunks)
  = if truthy_number (Mode.backfill m) then 8 else 0.
Proof.
  unfold backfill_chunks. destruct (truthy_number _).
  - destruct (Int64.buffer _) as [b |] eqn:Hb; [| discriminate].
    intros [= <-]. apply Int64_buffer_length in Hb.
    unfold Buf.length, Buf.concat. cbn [List.concat].
    rewrite app_nil_r, Hb. reflexivity.
  - intros [= <-]. reflexivity.
Qed.

Lemma forEach_createUInt16BE_length (vbs : list Z) c ids :
  forEach (fun v => checked (factory.createUInt16BE v)) vbs c
  = (Normal ids, c, []) ->
  List.length (List.concat ids) = (2 * List.length vbs)%nat.
Proof.
  revert ids. induction vbs as [| v rest IH]; intros ids; cbn [forEach].
  - intros [= <-]. reflexivity.
  - destruct (factory.createUInt16BE v) as [b |] eqn:Hb; [| discriminate].
    rewrite (bind_quiet _ _ c (Normal b)) by reflexivity.
    destruct (forEach_checked_quiet factory.createUInt16BE rest) as [r Hr].
    rewrite (bind_quiet _ _ c r) by apply Hr.
    destruct r as [ys | e]; [| discriminate].
    intros [= <-]. cbn [List.concat List.length].
    rewrite length_app, (IH ys) by apply Hr.
    rewrite (createUInt16BE_length _ _ Hb). lia.
Qed.

Lemma vbuckets_chunks_length m c chunks :
  vbuckets_chunks m c = (Normal chunks, c, []) ->
  Buf.length (Buf.concat chunks)
  = match Mode.vbuckets m with
    | Some vbs => 2 + 2 * Z.of_nat (List.length vbs)
    | None => 0
    end.
Proof.
  unfold vbuckets_chunks. destruct (Mode.vbuckets m) as [vbs |].
  - destruct (factory.createUInt16BE (Z.of_nat _)) as [n |] eqn:Hn;
      [| discriminate].
    rewrite (bind_quiet _ _ c (Normal n)) by reflexivity.
    destruct (forEach_checked_quiet factory.createUInt16BE vbs) as [r Hr].
    rewrite (bind_quiet _ _ c r) by apply Hr.
    destruct r as [ids | e]; [| discriminate].
    intros [= <-]. unfold Buf.length, Buf.concat. cbn [List.concat].
    rewrite length_app, (createUInt16BE_length _ _ Hn).
    rewrite (forEach_createUInt16BE_length vbs c ids) by apply Hr. lia.
  - intros [= <-]. reflexivity.
Qed.
End request_layout.

(** X12: an honoured mode request, for a mode whose numbers can be
    encoded, is one packet of three chunks: four bytes of extras that hold
    the flag word, the key (the UTF-8 bytes of the client's name, nothing
    when no name or an empty one was given), and a body of eight bytes
    when a backfill position is requested followed by two bytes for the
    count and two for each vbucket when a vbucket list is given.  Its
    header has magic 0x80 and opcode 0x40, and its three lengths are those
    of the chunks, the data length being their sum. *)
Theorem mode_request_layout `{Collaborators} m c :
  _connected c = true ->
  mode_encodable m = true ->
  exists hdr extras key body,
    setMode m c
    = (Normal tt, set_mode m c, [ConnSend hdr [extras; key; body]])
    /\ Header.magic hdr = 0x80
    /\ Header.opcode hdr = 0x40
    /\ Buf.length extras = 4
    /\ Buf.be_value extras = mode_flags m
    /\ key = match Opts.name (opts c) with
             | Some name => Buf.from_string name
             | None => []
             end
    /\ Buf.length body
       = (if truthy_number (Mode.backfill m) then 8 else 0)
         + match Mode.vbuckets m with
           | Some vbs => 2 + 2 * Z.of_nat (List.length vbs)
           | None => 0
           end
    /\ Header.extrasLength hdr = Buf.length extras
    /\ Header.keyLength hdr = Buf.length key
    /\ Header.dataLength hdr
       = Buf.length extras + Buf.length key + Buf.length body.
Proof.
  intros Hc Henc.
  destruct (setMode_connected m c Hc Henc)
    as (chunks1 & chunks2 & Hset & H1 & H2).
  cbv zeta in Hset.
  eexists _, _, _, _. split; [exact Hset |].
  split; [reflexivity | split; [reflexivity |]].
  split; [reflexivity |].
  split.
  { rewrite be_value_be_bytes. apply Z.mod_small.
    change (256 ^ Z.of_nat 4) with (2 ^ 32). apply mode_flags_range. }
  split.
  { unfold Buffer_of_string_or_0.
    destruct (Opts.name (opts c)) as [[| u rest] |]; reflexivity. }
  split; [| repeat split; reflexivity].
  pose proof (backfill_chunks_length m c chunks1 (H1 c)) as Hl1.
  pose proof (vbuckets_chunks_length m c chunks2 (H2 c)) as Hl2.
  unfold Buf.length, Buf.concat in *.
  rewrite concat_app, length_app. lia.
Qed.

Lemma mode_request_layout_scenario :
  let m := {| Mode.backfill := Some 5; Mode.dump := true;
              Mode.vbuckets := Some [0; 1; 1023]; Mode.takover := false;
              Mode.enableAcks := false; Mode.keysOnly := false;
              Mode.registred := false |} in
  exists hdr extras key body,
    @setMode Sample.collaborators m Sample.ready
    = (Normal tt, set_mode m Sample.ready, [ConnSend hdr [extras; key; body]])
    /\ Buf.be_value extras = 7
    /\ key = ["t"; "e"; "s"; "t"; "1"]%byte
    /\ Buf.length body = 16
    /\ Header.dataLength hdr = 25.
Proof.
  intros m.
  destruct (@mode_request_layout Sample.collaborators m Sample.ready)
    as (hdr & extras & key & body & Hrun & _ & _ & Hex & Hfl & Hkey & Hbody
        & _ & _ & Hdata).
  - reflexivity.
  - reflexivity.
  - exists hdr, extras, key, body.
    split; [exact Hrun | split; [exact Hfl | split; [exact Hkey |]]].
    split; [exact Hbody |].
    rewrite Hdata, Hex, Hbody, Hkey. reflexivity.
Defined.

(** ** The life of a session *)

(** The fields after an authenticate response. *)
Lemma auth_packet_fields `{Collaborators} header extras key body c :
  Header.opcode header = 0x21 ->
  fields_after (_onData header extras key body c)
  = match body with
    | [] =>
        match Opts.mode (opts c) with
        | Some m => set_mode m (set_connected true c)
        | None => set_connected true c
        end
    | _ :: _ => set_connected false c
    end.
Proof.
  intros Hop. rewrite _onData_run, Hop, handlers_0x21.
  destruct body as [| b rest].
  - rewrite _handleSASLAuth_success by reflexivity.
    destruct (Opts.mode (opts c)) as [m |]; [| reflexivity].
    pose proof (setMode_fields m (set_connected true c)) as Hfields.
    cbn [_connected set_connected] in Hfields.
    unfold mbind, M_bind.
    destruct (setMode m (set_connected true c)) as [[r c1] t1].
    unfold fields_after in Hfields. cbn [fst snd] in Hfields. subst c1.
    destruct r; reflexivity.
  - pose proof (toString_utf8_nonempty (b :: rest) ltac:(discriminate))
      as Hstatus.
    unfold _handleSASLAuth.
    destruct (Buf.toString_utf8 (b :: rest)); [contradiction |].
    unfold mbind, M_bind. rewrite _onError_run.
    destruct (listens_error c); reflexivity.
Qed.

(** One input: the options stay, and the connected flag is what the input
    decides, or stays when it decides nothing. *)
Lemma step_fields `{Collaborators} i c :
  opts (fields_after (step i c)) = opts c
  /\ _connected (fields_after (step i c))
     = default (_connected c) (decides i).
Proof.
  destruct i as [| err | | header extras key body | | | | m];
    try (split; reflexivity).
  - cbn [step decides]. rewrite _onError_run.
    destruct (listens_error c); split; reflexivity.
  - cbn [step decides].
    destruct (Z.eqb_spec (Header.opcode header) 0x21) as [Hop | Hop].
    + rewrite (auth_packet_fields header extras key body c Hop).
      destruct body; [| split; reflexivity].
      destruct (Opts.mode (opts c)); split; reflexivity.
    + destruct (_onData_keeps_fields header extras key body c Hop)
        as (r & t & Hrun).
      rewrite Hrun. split; reflexivity.
  - cbn [step decides]. rewrite setMode_fields.
    destruct (_connected c) eqn:Hc; split; try reflexivity; cbn; congruence.
Qed.

(** X13: whatever signals of the connection, packets and calls of
    [connect], [close] and [setMode] a session goes through, in whatever
    order and also when some of them throw, its options never change, and
    it is connected exactly when the last input among errors, closes, ends
    and authenticate responses was an authenticate response with an empty
    body (when there was none, the flag is as it was). *)
Theorem session_invariant `{Collaborators} l c :
  opts (fields_after_inputs l c) = opts c
  /\ _connected (fields_after_inputs l c)
     = default (_connected c) (last_decision l).
Proof.
  revert c. induction l as [| i rest IH]; intros c; [split; reflexivity |].
  cbn [fields_after_inputs last_decision].
  destruct (IH (fields_after (step i c))) as [Hopts Hconn].
  destruct (step_fields i c) as [Hopts1 Hconn1].
  split; [congruence |].
  rewrite Hconn. destruct (last_decision rest); [reflexivity | exact Hconn1].
Qed.

(** X14: the handshake, step by step.  When the transport connects, the
    session sends the list-mechanisms request (magic 0x80, opcode 0x20, no
    chunk); on the 0x20 response it sends the authenticate request with
    the key "PLAIN" and the response of the credential collaborator; on a
    0x21 response with an empty body, for a client built without a mode,
    it emits [connect] and is Ready.  Each inbound packet is notified as
    [data] before the session acts on it. *)
Theorem handshake `{Collaborators} o h20 e20 k20 b20 h21 e21 k21 :
  Header.opcode h20 = 0x20 ->
  Header.opcode h21 = 0x21 ->
  Opts.mode o = None ->
  exists req20 req21,
    (_onConnect ≫= fun _ =>
     _onData h20 e20 k20 b20 ≫= fun _ =>
     _onData h21 e21 k21 []) (new_Client o)
    = (Normal tt, set_connected true (new_Client o),
       [ConnSend req20 [];
        Emit (EvData h20 e20 k20 b20);
        ConnSend req21
          [Buf.from_string (js "PLAIN");
           Buf.from_string
             (sasl_plain_response (Opts.bucket o) (Opts.password o))];
        Emit (EvData h21 e21 k21 []);
        Emit EvConnect])
    /\ Header.magic req20 = 0x80 /\ Header.opcode req20 = 0x20
    /\ Header.magic req21 = 0x80 /\ Header.opcode req21 = 0x21
    /\ state_of (set_connected true (new_Client o)) = Ready.
Proof.
  intros H20 H21 Hmode.
  eexists _, _. split.
  - rewrite (run_bind _ _ (new_Client o) tt (new_Client o)
               [ConnSend (Header.set_opcode 0x20
                            (Header.set_magic 0x80 createHeader)) []])
      by reflexivity.
    assert (_onData h20 e20 k20 b20 (new_Client o)
            = (Normal tt, new_Client o,
               [Emit (EvData h20 e20 k20 b20);
                ConnSend
                  (Header.set_dataLength
                     (Buf.length (Buf.from_string (js "PLAIN"))
                      + Buf.length
                          (Buf.from_string
                             (sasl_plain_response (Opts.bucket o)
                                (Opts.password o))))
                     (Header.set_keyLength
                        (Buf.length (Buf.from_string (js "PLAIN")))
                        (Header.set_opcode 0x21
                           (Header.set_magic 0x80 createHeader))))
                  [Buf.from_string (js "PLAIN");
                   Buf.from_string
                     (sasl_plain_response (Opts.bucket o)
                        (Opts.password o))]])) as Hmechs.
    { rewrite _onData_run, H20, handlers_0x20.
      unfold _handleSASLMechs, _handleSASLMechs_with, _requestSASLAuth.
      rewrite (bind_quiet _ _ (new_Client o) (Normal (new_Client o)))
        by reflexivity.
      reflexivity. }
    rewrite (run_bind _ _ (new_Client o) tt (new_Client o) _ Hmechs).
    assert (_onData h21 e21 k21 [] (new_Client o)
            = (Normal tt, set_connected true (new_Client o),
               [Emit (EvData h21 e21 k21 []); Emit EvConnect])) as Hauth.
    { rewrite _onData_run, H21, handlers_0x21.
      rewrite _handleSASLAuth_success by reflexivity.
      cbn [opts new_Client]. rewrite Hmode. reflexivity. }
    rewrite Hauth. reflexivity.
  - repeat split; reflexivity.
Qed.

Lemma handshake_scenario :
  exists req20 req21,
    (@_onConnect Sample.collaborators ≫= fun _ =>
     @_onData Sample.collaborators (Sample.inbound 0x20)
       (Buf.from_string (js "PLAIN")) [] [] ≫= fun _ =>
     @_onData Sample.collaborators (Sample.inbound 0x21) [] [] [])
      (new_Client Sample.opts0)
    = (Normal tt, Sample.ready,
       [ConnSend req20 [];
        Emit (EvData (Sample.inbound 0x20) (Buf.from_string (js "PLAIN")) [] []);
        ConnSend req21
          [["P"; "L"; "A"; "I"; "N"]%byte;
           [x00; "t"; "e"; "s"; "t"; x00;
            "p"; "a"; "s"; "s"; "w"; "o"; "r"; "d"]%byte];
        Emit (EvData (Sample.inbound 0x21) [] [] []);
        Emit EvConnect])
    /\ Header.opcode req20 = 0x20 /\ Header.opcode req21 = 0x21.
Proof.
  destruct (@handshake Sample.collaborators Sample.opts0
              (Sample.inbound 0x20) (Buf.from_string (js "PLAIN")) [] []
              (Sample.inbound 0x21) [] [])
    as (req20 & req21 & Hrun & _ & H20 & _ & H21 & _).
  - reflexivity.
  - reflexivity.
  - reflexivity.
  - exists req20, req21. split; [exact Hrun | split; [exact H20 | exact H21]].
Defined.

(** X15: what a mode request sends does not depend on a mode requested
    before: a second [setMode] sends the same request as if it were the
    first, and leaves the session with the second mode recorded. *)
Theorem setMode_last_wins `{Collaborators} m1 m2 c :
  effects_of (setMode m2 (fields_after (setMode m1 c)))
  = effects_of (setMode m2 c)
  /\ fields_after (setMode m2 (fields_after (setMode m1 c)))
     = fields_after (setMode m2 c).
Proof.
  rewrite (setMode_fields m1 c).
  destruct (_connected c) eqn:Hc.
  - destruct (backfill_chunks_quiet m2) as [r1 H1].
    destruct (vbuckets_chunks_quiet m2) as [r2 H2].
    rewrite (setMode_shape m2 (set_mode m1 c) r1 r2) by assumption.
    rewrite (setMode_shape m2 c r1 r2) by assumption.
    destruct r1, r2; split; reflexivity.
  - split; reflexivity.
Qed.

(** ** Strings of ASCII bytes *)

(** The UTF-8 decoder turns ASCII bytes into their own character codes. *)
Lemma toString_utf8_ascii (bs : Buffer) :
  Forall (fun b => is_ascii b = true) bs ->
  Buf.toString_utf8 bs = map byte_to_Z bs.
Proof.
  unfold Buf.toString_utf8.
  induction 1 as [| b rest Hb _ IH]; [reflexivity |].
  unfold is_ascii in Hb. apply Z.ltb_lt in Hb.
  pose proof (byte_to_Z_range b) as Hrange.
  cbn [Buf.utf8_run Buf.bytes_needed Buf.utf8_init Z.eqb].
  unfold Buf.utf8_lead.
  destruct (Z.leb_spec (byte_to_Z b) 0x7F); [| lia].
  cbn [app flat_map map]. rewrite IH.
  unfold Buf.utf16_units.
  destruct (Z.ltb_spec (byte_to_Z b) 0x10000); [reflexivity | lia].
Qed.

(** X16: for a mutation packet whose key region after the meta and whose
    body region hold ASCII bytes only, the key and the value of the event
    have one character for each byte, with the byte as its code: the key
    is the rest of the key region followed by the first [m] bytes of the
    body, the value the rest of the body, and each string is as long as
    its bytes. *)
Theorem mutation_ascii `{Collaborators} header extras key body c m :
  Header.opcode header = 0x41 ->
  16 <= Buf.length extras ->
  Buf.readUInt16BE extras 0 = Some m ->
  Forall (fun b => is_ascii b = true) (drop (Z.to_nat m) key) ->
  Forall (fun b => is_ascii b = true) body ->
  exists k v misc,
    _onData header extras key body c
    = (Normal tt, c,
       [Emit (EvData header extras key body);
        Emit (EvMutation (take (Z.to_nat m) key) k v misc)])
    /\ k = map byte_to_Z (drop (Z.to_nat m) key ++ take (Z.to_nat m) body)
    /\ v = map byte_to_Z (drop (Z.to_nat m) body)
    /\ List.length k
       = List.length (drop (Z.to_nat m) key ++ take (Z.to_nat m) body)
    /\ List.length v = List.length (drop (Z.to_nat m) body).
Proof.
  intros Hop Hlen Hm Hkey Hbody.
  destruct (_handleMutation_run header extras key body c Hlen)
    as (misc & Hrun & Heng & _).
  assert (engine (misc_extras misc) = m) as Hmeta by congruence.
  assert (0 <= m) as Hpos by (eapply read_be_nonneg; exact Hm).
  eexists _, _, misc. split; [| split; [| split; [| split]]].
  - rewrite _onData_run, Hop, handlers_0x41, Hrun, Hmeta.
    rewrite slice_prefix, visible_key_bytes_eq, slice_from_suffix
      by assumption.
    reflexivity.
  - apply toString_utf8_ascii. apply Forall_app. split; [exact Hkey |].
    apply Forall_take, Hbody.
  - apply toString_utf8_ascii. apply Forall_drop, Hbody.
  - rewrite toString_utf8_ascii; [apply length_map |].
    apply Forall_app. split; [exact Hkey | apply Forall_take, Hbody].
  - rewrite toString_utf8_ascii; [apply length_map |].
    apply Forall_drop, Hbody.
Qed.

Lemma mutation_ascii_scenario :
  exists misc,
    @_onData Sample.collaborators (Sample.inbound 0x41) Sample.mutation_extras
      Sample.mutation_key Sample.mutation_body Sample.streaming
    = (Normal tt, Sample.streaming,
       [Emit (EvData (Sample.inbound 0x41) Sample.mutation_extras
                Sample.mutation_key Sample.mutation_body);
        Emit (EvMutation [x01; x02; x03]%byte
                [102; 111; 111; 98; 97; 114] [98; 97; 122] misc)]).
Proof.
  destruct (@mutation_ascii Sample.collaborators (Sample.inbound 0x41)
              Sample.mutation_extras Sample.mutation_key Sample.mutation_body
              Sample.streaming 3)
    as (k & v & misc & Hrun & Hk & Hv & _).
  - reflexivity.
  - vm_compute. discriminate.
  - reflexivity.
  - repeat constructor.
  - repeat constructor.
  - exists misc. rewrite Hrun, Hk, Hv. reflexivity.
Defined.

(** ** What the session sends *)

Section requests.
Context `{Collaborators}.

Lemma setMode_requests m c :
  Forall (fun e => is_known_request e = true) (effects_of (setMode m c)).
Proof.
  destruct (_connected c) eqn:Hc.
  - destruct (backfill_chunks_quiet m) as [r1 H1].
    destruct (vbuckets_chunks_quiet m) as [r2 H2].
    rewrite (setMode_shape m c _ _ Hc H1 H2).
    destruct r1, r2; repeat constructor.
  - rewrite setMode_not_connected by exact Hc. constructor.
Qed.

Lemma _handleSASLAuth_requests header extras key body c :
  Forall (fun e => is_known_request e = true)
    (effects_of (_handleSASLAuth header extras key body c)).
Proof.
  destruct (Buf.toString_utf8 body) as [| u rest] eqn:Hbody.
  - rewrite _handleSASLAuth_success by exact Hbody.
    destruct (Opts.mode (opts c)) as [m |]; [| repeat constructor].
    pose proof (setMode_requests m (set_connected true c)) as Hreq.
    unfold mbind, M_bind.
    destruct (setMode m (set_connected true c)) as [[r c1] t1].
    unfold effects_of in *. cbn [snd] in *.
    destruct r; [| exact Hreq].
    cbn [emit effect snd]. apply Forall_app. split; [exact Hreq |].
    repeat constructor.
  - unfold _handleSASLAuth. rewrite Hbody.
    unfold mbind, M_bind. rewrite _onError_run.
    destruct (listens_error c); repeat constructor.
Qed.

Lemma _onData_requests header extras key body c :
  Forall (fun e => is_known_request e = true)
    (effects_of (_onData header extras key body c)).
Proof.
  destruct (handlers_cases (Header.opcode header))
    as [[H20 _] | [[H21 _] | [[Hd _] | [[Hd _] | [[Hd _] | [[Hd _] | [Hnone _]]]]]]].
  - rewrite _onData_run, H20, handlers_0x20.
    unfold _handleSASLMechs, _handleSASLMechs_with, _requestSASLAuth.
    rewrite (bind_quiet _ _ c (Normal c)) by reflexivity.
    repeat constructor.
  - rewrite _onData_run, H21, handlers_0x21.
    pose proof (_handleSASLAuth_requests header extras key body c) as Hreq.
    destruct (_handleSASLAuth header extras key body c) as [[r c1] t1].
    unfold effects_of in *. cbn [snd] in *.
    constructor; [reflexivity | exact Hreq].
  - destruct (decoder_packet header extras key body c)
      as (r & t & Hrun & [-> | (ev & -> & _)]);
      [rewrite Hd; set_solver | |]; rewrite Hrun; repeat constructor.
  - destruct (decoder_packet header extras key body c)
      as (r & t & Hrun & [-> | (ev & -> & _)]);
      [rewrite Hd; set_solver | |]; rewrite Hrun; repeat constructor.
  - destruct (decoder_packet header extras key body c)
      as (r & t & Hrun & [-> | (ev & -> & _)]);
      [rewrite Hd; set_solver | |]; rewrite Hrun; repeat constructor.
  - destruct (decoder_packet header extras key body c)
      as (r & t & Hrun & [-> | (ev & -> & _)]);
      [rewrite Hd; set_solver | |]; rewrite Hrun; repeat constructor.
  - rewrite _onData_run, (handlers_unknown _ Hnone). repeat constructor.
Qed.
End requests.

(** X17: whatever the input (a signal of the connection, a packet, a call
    of a method) and whatever the fields, every packet the session sends
    on its connection is a request with magic 0x80 and opcode 0x20, 0x21
    or 0x40: the session never sends anything else, whatever it
    receives. *)
Theorem only_known_requests_sent `{Collaborators} i c :
  Forall (fun e => is_known_request e = true) (effects_of (step i c)).
Proof.
  destruct i as [| err | | header extras key body | | | | m];
    try (repeat constructor).
  - cbn [step]. rewrite _onError_run.
    destruct (listens_error c); repeat constructor.
  - apply _onData_requests.
  - apply setMode_requests.
Qed.

(** ** A backfill position of zero *)




